(** * core-stream/api: the webhook receiver and the request executor

    A shallow embedding of [webhook_handler.go], [errors.go] and the client
    ([NewClient], [request]) of the Go package [corestream], together with
    the parts of the Go standard library their behaviour rests on:
    [encoding/hex], [crypto/sha256], [crypto/hmac], [io.LimitReader],
    [net/http.Error] and the control-byte check of [url.Parse] are
    embedded; [encoding/json], the rest of [net/url] and the transport are
    parameters ([Json], [Net]).

    Go strings are Rocq [string]s, byte slices are [list byte], Go [int] and
    [int64] values are [Z], a [nil] error or pointer is [None]. *)

From Stdlib Require Import ZArith NArith List String Ascii Bool Lia.
From Stdlib.Strings Require Import Byte.
From stdpp Require Import base option list gmap strings pretty.
Import ListNotations.

Local Open Scope Z_scope.

(** ** Byte helpers *)

Module Bytes.

Definition to_Z (b : byte) : Z := Z.of_N (Byte.to_N b).

(** Truncating conversion, as Go's [byte(x)]. *)
Definition of_Z (z : Z) : byte :=
  match Byte.of_N (Z.to_N (z mod 256)) with
  | Some b => b
  | None => x00
  end.

(** [[]byte(s)] and [string(b)]. *)
Definition of_string (s : string) : list byte := list_byte_of_string s.
Definition to_string (b : list byte) : string := string_of_list_byte b.

End Bytes.

(** ** encoding/hex *)

Module hex.

Inductive Error :=
| ErrLength
| InvalidByteError (c : byte).

Definition hextable : list ascii :=
  list_ascii_of_string "0123456789abcdef".

Definition hexdigit (n : Z) : ascii :=
  nth (Z.to_nat n) hextable "0"%char.

(** [reverseHexTable]: the digit value of a hexadecimal character of
    either case, [0xff] for every other byte. *)
Definition reverseHexTable (c : byte) : Z :=
  let n := Bytes.to_Z c in
  if (48 <=? n) && (n <=? 57) then n - 48
  else if (97 <=? n) && (n <=? 102) then n - 87
  else if (65 <=? n) && (n <=? 70) then n - 55
  else 255.

(** [EncodeToString]: two lower-case digits per byte, high nibble first. *)
Fixpoint EncodeToString (src : list byte) : string :=
  match src with
  | [] => EmptyString
  | v :: rest =>
      String (hexdigit (Z.shiftr (Bytes.to_Z v) 4))
        (String (hexdigit (Z.land (Bytes.to_Z v) 15))
           (EncodeToString rest))
  end.

(** [DecodeString]: the bytes decoded before the first error, and the
    error. An invalid character is reported before an odd length. *)
Fixpoint DecodeString (s : string) : list byte * option Error :=
  match s with
  | EmptyString => ([], None)
  | String p EmptyString =>
      if 15 <? reverseHexTable (byte_of_ascii p)
      then ([], Some (InvalidByteError (byte_of_ascii p)))
      else ([], Some ErrLength)
  | String p (String q rest) =>
      let a := reverseHexTable (byte_of_ascii p) in
      let b := reverseHexTable (byte_of_ascii q) in
      if 15 <? a then ([], Some (InvalidByteError (byte_of_ascii p)))
      else if 15 <? b then ([], Some (InvalidByteError (byte_of_ascii q)))
      else
        let '(out, err) := DecodeString rest in
        (Bytes.of_Z (Z.lor (Z.shiftl a 4) b) :: out, err)
  end.

End hex.

(** ** crypto/sha256 (FIPS 180-4) on 32-bit words held in [Z] *)

Module sha256.

Definition Size : Z := 32.
Definition BlockSize : Z := 64.

Definition w32 (x : Z) : Z := Z.land x 4294967295.
Definition add32 (x y : Z) : Z := w32 (x + y).
Definition rotr (n x : Z) : Z :=
  Z.lor (Z.shiftr x n) (w32 (Z.shiftl x (32 - n))).
Definition not32 (x : Z) : Z := Z.lxor x 4294967295.

Definition Ch (x y z : Z) : Z := Z.lxor (Z.land x y) (Z.land (not32 x) z).
Definition Maj (x y z : Z) : Z :=
  Z.lxor (Z.lxor (Z.land x y) (Z.land x z)) (Z.land y z).
Definition Sigma0 (x : Z) : Z :=
  Z.lxor (Z.lxor (rotr 2 x) (rotr 13 x)) (rotr 22 x).
Definition Sigma1 (x : Z) : Z :=
  Z.lxor (Z.lxor (rotr 6 x) (rotr 11 x)) (rotr 25 x).
Definition sigma0 (x : Z) : Z :=
  Z.lxor (Z.lxor (rotr 7 x) (rotr 18 x)) (Z.shiftr x 3).
Definition sigma1 (x : Z) : Z :=
  Z.lxor (Z.lxor (rotr 17 x) (rotr 19 x)) (Z.shiftr x 10).

(** The constants are the first 32 bits of the fractional parts of the
    cube roots ([K]) and of the square roots ([init]) of the first primes. *)
Definition is_prime (n : Z) : bool :=
  (1 <? n)
  && forallb (fun d => negb (n mod d =? 0))
       (map Z.of_nat (seq 2 (Z.to_nat n - 2))).

Definition primes (count : nat) : list Z :=
  firstn count (filter is_prime (map Z.of_nat (seq 2 310))).

(** The integer cube root of [x], bit by bit from bit [n - 1] down. *)
Fixpoint cbrt (n : nat) (x r : Z) : Z :=
  match n with
  | O => r
  | S n' =>
      let c := r + 2 ^ Z.of_nat n' in
      if c * c * c <=? x then cbrt n' x c else cbrt n' x r
  end.

Definition frac_cbrt (p : Z) : Z := w32 (cbrt 36 (p * 2 ^ 96) 0).
Definition frac_sqrt (p : Z) : Z := w32 (Z.sqrt (p * 2 ^ 64)).

Definition K : list Z := Eval vm_compute in map frac_cbrt (primes 64).

(** The eight working variables [a .. h]. *)
Record digest := Digest {
  h0 : Z; h1 : Z; h2 : Z; h3 : Z; h4 : Z; h5 : Z; h6 : Z; h7 : Z
}.

Definition init : digest :=
  Eval vm_compute in
    let h := map frac_sqrt (primes 8) in
    Digest (nth 0 h 0) (nth 1 h 0) (nth 2 h 0) (nth 3 h 0)
           (nth 4 h 0) (nth 5 h 0) (nth 6 h 0) (nth 7 h 0).

(** Big-endian words of a block. *)
Fixpoint words (p : list byte) : list Z :=
  match p with
  | a :: b :: c :: d :: rest =>
      Z.lor (Z.lor (Z.lor (Z.shiftl (Bytes.to_Z a) 24)
                          (Z.shiftl (Bytes.to_Z b) 16))
                   (Z.shiftl (Bytes.to_Z c) 8))
            (Bytes.to_Z d)
      :: words rest
  | _ => []
  end.

(** The message schedule: [n] further words appended to [w], each from
    the words 2, 7, 15 and 16 places before it. *)
Fixpoint schedule (n : nat) (w : list Z) : list Z :=
  match n with
  | O => w
  | S n' =>
      let t := List.length w in
      let at_ (k : nat) := nth (t - k) w 0 in
      schedule n'
        (w ++ [add32 (add32 (sigma1 (at_ 2%nat)) (at_ 7%nat))
                     (add32 (sigma0 (at_ 15%nat)) (at_ 16%nat))])
  end.

Definition round (s : digest) (kw : Z * Z) : digest :=
  let t1 := add32 (add32 (add32 (add32 (h7 s) (Sigma1 (h4 s)))
                                (Ch (h4 s) (h5 s) (h6 s)))
                         (fst kw)) (snd kw) in
  let t2 := add32 (Sigma0 (h0 s)) (Maj (h0 s) (h1 s) (h2 s)) in
  Digest (add32 t1 t2) (h0 s) (h1 s) (h2 s)
         (add32 (h3 s) t1) (h4 s) (h5 s) (h6 s).

Definition block (s : digest) (p : list byte) : digest :=
  let w := schedule 48 (words p) in
  let r := fold_left round (combine K w) s in
  Digest (add32 (h0 s) (h0 r)) (add32 (h1 s) (h1 r))
         (add32 (h2 s) (h2 r)) (add32 (h3 s) (h3 r))
         (add32 (h4 s) (h4 r)) (add32 (h5 s) (h5 r))
         (add32 (h6 s) (h6 r)) (add32 (h7 s) (h7 r)).

(** [blocks n s p]: at most [n] 64-byte blocks of [p], in order. *)
Fixpoint blocks (n : nat) (s : digest) (p : list byte) : digest :=
  match n, p with
  | S n', _ :: _ => blocks n' (block s (firstn 64 p)) (skipn 64 p)
  | _, _ => s
  end.

Definition be (width : nat) (x : Z) : list byte :=
  map (fun i : nat => Bytes.of_Z (Z.shiftr x (8 * Z.of_nat i)))
      (rev (seq 0 width)).

(** Padding: [0x80], zeros up to 56 modulo 64, the bit length on 8 bytes. *)
Definition pad (len : Z) : list byte :=
  x80 :: repeat x00 (Z.to_nat ((55 - len) mod 64)) ++ be 8 (8 * len).

Definition Sum256 (data : list byte) : list byte :=
  let p := data ++ pad (Z.of_nat (List.length data)) in
  let s := blocks (List.length p) init p in
  be 4 (h0 s) ++ be 4 (h1 s) ++ be 4 (h2 s) ++ be 4 (h3 s) ++
  be 4 (h4 s) ++ be 4 (h5 s) ++ be 4 (h6 s) ++ be 4 (h7 s).

End sha256.

(** ** crypto/hmac (RFC 2104) with SHA-256 *)

Module hmac.

Definition xor_pad (c : Z) (key : list byte) : list byte :=
  map (fun b => Bytes.of_Z (Z.lxor (Bytes.to_Z b) c)) key.

(** [hmac.New(sha256.New, key)]; [Write(message)]; [Sum(nil)]. A key longer
    than the block size is hashed first; it is then zero-padded to the
    block size. *)
Definition Sum (key message : list byte) : list byte :=
  let k := if 64 <? Z.of_nat (List.length key)
           then sha256.Sum256 key else key in
  let k := k ++ repeat x00 (64 - List.length k) in
  sha256.Sum256 (xor_pad 0x5c k ++ sha256.Sum256 (xor_pad 0x36 k ++ message)).

(** [subtle.ConstantTimeCompare]: 0 at once on different lengths, else
    the OR of the byte-wise XORs is compared with 0. *)
Fixpoint xor_fold (x y : list byte) (v : Z) : Z :=
  match x, y with
  | a :: x', b :: y' =>
      xor_fold x' y' (Z.lor v (Z.lxor (Bytes.to_Z a) (Bytes.to_Z b)))
  | _, _ => v
  end.

Definition ConstantTimeCompare (x y : list byte) : Z :=
  if negb (List.length x =? List.length y)%nat then 0
  else if xor_fold x y 0 =? 0 then 1 else 0.

Definition Equal (mac1 mac2 : list byte) : bool :=
  ConstantTimeCompare mac1 mac2 =? 1.

End hmac.

(** [x != nil], with [None] for [nil]. *)
Definition not_nil {A} (x : option A) : bool :=
  match x with
  | Some _ => true
  | None => false
  end.

(** ** errors.go *)

Module errors.

(** [errors.New(s)] and [fmt.Errorf(s)] without verbs. *)
Record errorString := { s : string }.

Definition errorString_Error (e : errorString) : string := s e.

(** [APIError], the error response of the core.stream API. *)
Record APIError := {
  StatusCode : Z;
  Code : string;
  Message : string
}.

(** Go error values: one constructor per Go type, and for the errors that
    [fmt.Errorf] builds with [%w], one per call site of the package. *)
Inductive error :=
| New (e : errorString)
| External (msg : string)                  (* an error of the standard library or of the transport *)
| url_Error (Op URL : string) (Err : error)
| invalid_base_URL (err : error)          (* "corestream: invalid base URL: %w" *)
| invalid_path (path : string) (err : error)   (* "corestream: invalid path %q: %w" *)
| failed_to_encode_request_body (err : error)
| failed_to_create_request (err : error)
| request_failed (err : error)
| failed_to_read_response (err : error)
| failed_to_decode_response (err : error)
| APIError_ptr (e : APIError).

Definition token_is_required : error :=
  New {| s := "corestream: token is required" |}.
Definition HTTP_client_cannot_be_nil : error :=
  New {| s := "corestream: HTTP client cannot be nil" |}.

(** Webhook signature errors. *)
Definition ErrMissingSignature : errorString :=
  {| s := "corestream: missing webhook signature" |}.
Definition ErrInvalidSignature : errorString :=
  {| s := "corestream: invalid webhook signature" |}.

(** [errors.As(err, &apiErr)] with [apiErr *APIError]: the first
    [*APIError] on the chain of wrapped errors. *)
Fixpoint As_APIError (err : error) : option APIError :=
  match err with
  | APIError_ptr e => Some e
  | url_Error _ _ e
  | invalid_base_URL e
  | invalid_path _ e
  | failed_to_encode_request_body e
  | failed_to_create_request e
  | request_failed e
  | failed_to_read_response e
  | failed_to_decode_response e => As_APIError e
  | New _ | External _ => None
  end.

(** A Go [error] result is [None] for [nil]. *)
Definition isStatusCode (err : option error) (statusCode : Z) : bool :=
  match err with
  | Some e =>
      match As_APIError e with
      | Some apiErr => StatusCode apiErr =? statusCode
      | None => false
      end
  | None => false
  end.

Definition IsNotFound (err : option error) : bool := isStatusCode err 404.
Definition IsUnauthorized (err : option error) : bool := isStatusCode err 401.
Definition IsRateLimited (err : option error) : bool := isStatusCode err 429.
Definition IsForbidden (err : option error) : bool := isStatusCode err 403.

End errors.

Export errors.

(** ** io: readers *)

Module io.

(** A byte source: the bytes it delivers, then end of file ([None]) or a
    read error, met by the read that follows the last byte. *)
Record Reader := {
  data : list byte;
  err : option error
}.

(** [LimitReader(r, n)] stops with end of file after [n] bytes, and does
    not touch [r] again: an error of [r] behind the limit is never met. *)
Definition LimitReader (r : Reader) (n : Z) : Reader :=
  if Z.of_nat (List.length (data r)) <? n then r
  else {| data := take (Z.to_nat n) (data r); err := None |}.

Definition ReadAll (r : Reader) : list byte * option error :=
  (data r, err r).

End io.

(** ** net/http: requests, response writers, [http.Error] *)

Module http.

Definition MethodGet : string := "GET".
Definition MethodPost : string := "POST".

Definition StatusOK : Z := 200.
Definition StatusBadRequest : Z := 400.
Definition StatusUnauthorized : Z := 401.
Definition StatusMethodNotAllowed : Z := 405.
Definition StatusInternalServerError : Z := 500.

(** [Header.Get] on a canonical key: the first value, or the empty
    string. *)
Definition Header_Get (h : gmap string (list string)) (key : string)
  : string :=
  match h !! key with
  | Some (v :: _) => v
  | _ => EmptyString
  end.

Definition Header_Set (h : gmap string (list string)) (key value : string)
  : gmap string (list string) :=
  <[key := [value]]> h.

Record Request := {
  Method : string;
  URL : string;
  Header : gmap string (list string);
  Body : io.Reader
}.

Record Response := {
  StatusCode : Z;
  RespBody : io.Reader
}.

(** What a [ResponseWriter] has been given: headers, the status code once
    written, the body bytes. *)
Record ResponseWriter := {
  W_Header : gmap string (list string);
  W_Code : option Z;
  W_Body : list byte
}.

Definition NewRecorder : ResponseWriter :=
  {| W_Header := ∅; W_Code := None; W_Body := [] |}.

(** Only the first [WriteHeader] counts. *)
Definition WriteHeader (code : Z) (w : ResponseWriter) : ResponseWriter :=
  match W_Code w with
  | Some _ => w
  | None => {| W_Header := W_Header w; W_Code := Some code;
               W_Body := W_Body w |}
  end.

(** [Write] sends [StatusOK] first when no status was written. *)
Definition Write (b : list byte) (w : ResponseWriter) : ResponseWriter :=
  let w := WriteHeader StatusOK w in
  {| W_Header := W_Header w; W_Code := W_Code w;
     W_Body := W_Body w ++ b |}.

(** [http.Error]: plain-text headers, the status, the message and a
    newline. *)
Definition Error (error : string) (code : Z) (w : ResponseWriter)
  : ResponseWriter :=
  let h := delete "Content-Length"%string (W_Header w) in
  let h := Header_Set h "Content-Type" "text/plain; charset=utf-8" in
  let h := Header_Set h "X-Content-Type-Options" "nosniff" in
  let w := {| W_Header := h; W_Code := W_Code w; W_Body := W_Body w |} in
  Write (Bytes.of_string error ++ [x0a]) (WriteHeader code w).

End http.

(** ** types.go: the webhook payload *)

Record WebhookNotification := {
  ID : string;
  AlertID : string;
  StreamID : string;
  StreamerID : string;
  MatchedPhrase : string;
  ContextText : string;
  Timestamp : Z;                 (* an instant, in nanoseconds *)
  FullTranscript : string
}.

(** ** encoding/json

    The encoder and the decoders of the standard library are parameters of
    the development. [any] is the type of the Go values handed over as
    [interface{}]; [Unmarshal data v] is [json.Unmarshal(data, p)] for a
    pointer [p] to [v], giving the new value behind [p];
    [Unmarshal_WebhookNotification] is [json.Unmarshal] into a
    [WebhookNotification]; [Unmarshal_errResp] is [json.Unmarshal] into the
    anonymous error envelope of [request], giving its [code] and [message]
    fields. A result is the value or the non-nil error. *)

Class Json := {
  any : Type;
  Marshal : any -> list byte + error;
  Unmarshal : list byte -> any -> any + error;
  Unmarshal_WebhookNotification :
    list byte -> WebhookNotification + error;
  Unmarshal_errResp : list byte -> (string * string) + error
}.

(** ** webhook_handler.go *)

Module webhook.

(** [SignatureHeader] is the HTTP header containing the HMAC signature. *)
Definition SignatureHeader : string := "X-Webhook-Signature".

(** [MaxWebhookBodySize] limits the webhook body (1 MB). *)
Definition MaxWebhookBodySize : Z := Z.shiftl 1 20.

(** What one call of [ServeHTTP] acts on: the response writer, the state
    the user's handler works on, the notifications the handler was
    invoked with (latest last), and whether the request body was closed. *)
Record World (S : Type) := {
  writer : http.ResponseWriter;
  user : S;
  invoked : list WebhookNotification;
  closed : bool
}.
Arguments writer {S}. Arguments user {S}.
Arguments invoked {S}. Arguments closed {S}.

(** [WebhookHandler] processes validated webhook notifications: a handler
    that returns, with its error or [None], having acted on its state. *)
Definition WebhookHandler (S : Type) : Type :=
  WebhookNotification -> S -> option error * S.

Record WebhookReceiver (S : Type) := {
  secret : list byte;
  handler : WebhookHandler S;
  maxBodySize : Z;
  skipVerification : bool
}.
Arguments secret {S}. Arguments handler {S}.
Arguments maxBodySize {S}. Arguments skipVerification {S}.

Definition WebhookReceiverOption (S : Type) : Type :=
  WebhookReceiver S -> WebhookReceiver S.

(** [WithoutSignatureVerification] disables HMAC signature verification. *)
Definition WithoutSignatureVerification {S} : WebhookReceiverOption S :=
  fun r =>
    {| secret := secret r; handler := handler r;
       maxBodySize := maxBodySize r; skipVerification := true |}.

Definition NewWebhookReceiver {S} (secret : string)
    (handler : WebhookHandler S) (opts : list (WebhookReceiverOption S))
  : WebhookReceiver S :=
  let r := {| secret := Bytes.of_string secret; handler := handler;
              maxBodySize := MaxWebhookBodySize;
              skipVerification := false |} in
  fold_left (fun r opt => opt r) opts r.

Definition verifySignature (body : list byte) (signature : string)
    (secret : list byte) : bool :=
  let '(expectedSig, err) := hex.DecodeString signature in
  match err with
  | Some _ => false
  | None =>
      let computedSig := hmac.Sum secret body in
      hmac.Equal expectedSig computedSig
  end.

(** [VerifyWebhookSignature] verifies the HMAC-SHA256 signature of a
    webhook payload, outside of [WebhookReceiver]. *)
Definition VerifyWebhookSignature (body : list byte)
    (signature secret : string) : bool :=
  verifySignature body signature (Bytes.of_string secret).

(** [ParseWebhookNotification] parses a webhook payload. *)
Definition ParseWebhookNotification `{Json} (body : list byte)
  : WebhookNotification + error :=
  match Unmarshal_WebhookNotification body with
  | inr err => inr err
  | inl notification => inl notification
  end.

(** *** The steps of [ServeHTTP]

    A step acts on the world and either goes on with a value or has
    returned from [ServeHTTP] ([None]). *)
Definition Serve (S A : Type) : Type := World S -> option A * World S.

Definition pure {S A} (a : A) : Serve S A := fun w => (Some a, w).

Definition bind {S A B} (m : Serve S A) (k : A -> Serve S B)
  : Serve S B :=
  fun w =>
    match m w with
    | (Some a, w') => k a w'
    | (None, w') => (None, w')
    end.

(** The [return] statement. *)
Definition return_ {S A} : Serve S A := fun w => (None, w).

(** [if c { body }] *)
Definition when {S} (c : bool) (body : Serve S unit) : Serve S unit :=
  if c then body else pure tt.

(** [defer]: [d] runs when the rest of the function is left, whichever
    way. *)
Definition defer {S A} (d : World S -> World S) (rest : Serve S A)
  : Serve S A :=
  fun w => let '(a, w') := rest w in (a, d w').

Definition on_writer {S} (f : http.ResponseWriter -> http.ResponseWriter)
  : Serve S unit :=
  fun w =>
    (Some tt, {| writer := f (writer w); user := user w;
                 invoked := invoked w; closed := closed w |}).

Definition Body_Close {S} (w : World S) : World S :=
  {| writer := writer w; user := user w;
     invoked := invoked w; closed := true |}.

(** The call [r.handler(notification)]. *)
Definition call {S} (h : WebhookHandler S) (n : WebhookNotification)
  : Serve S (option error) :=
  fun w =>
    let '(err, u) := h n (user w) in
    (Some err, {| writer := writer w; user := u;
                  invoked := invoked w ++ [n]; closed := closed w |}).

#[export] Instance Serve_ret {S} : MRet (Serve S) := fun A a => pure a.
#[export] Instance Serve_bind {S} : MBind (Serve S) :=
  fun A B k m => bind m k.

(** The acknowledgement [{"status":"ok"}]. *)
Definition quoted (s : string) : string :=
  String "034" (s ++ String "034" EmptyString).
Definition status_ok : string :=
  "{" ++ quoted "status" ++ ":" ++ quoted "ok" ++ "}".

(** [ServeHTTP] implements [http.Handler]. *)
Definition ServeHTTP `{Json} {S} (r : WebhookReceiver S)
    (req : http.Request) : Serve S unit :=
  when (negb (String.eqb (http.Method req) http.MethodPost))
     (on_writer (http.Error "method not allowed"
                            http.StatusMethodNotAllowed) ;;
      return_) ;;
  let '(body, err) :=
     io.ReadAll (io.LimitReader (http.Body req) (maxBodySize r)) in
   when (not_nil err)
     (on_writer (http.Error "failed to read body"
                            http.StatusBadRequest) ;;
      return_) ;;
   defer Body_Close
     (when (negb (skipVerification r))
        (let signature :=
           http.Header_Get (http.Header req) SignatureHeader in
         when (String.eqb signature "")
           (on_writer (http.Error (errorString_Error ErrMissingSignature)
                                  http.StatusUnauthorized) ;;
            return_) ;;
         when (negb (verifySignature body signature (secret r)))
           (on_writer (http.Error (errorString_Error ErrInvalidSignature)
                                  http.StatusUnauthorized) ;;
            return_)) ;;
      match ParseWebhookNotification body with
      | inr _ =>
          on_writer (http.Error "invalid payload" http.StatusBadRequest) ;;
          return_
      | inl notification =>
          err ← call (handler r) notification;
          when (not_nil err)
            (on_writer (http.Error "handler error"
                                   http.StatusInternalServerError) ;;
             return_) ;;
          on_writer (http.WriteHeader http.StatusOK) ;;
          on_writer (http.Write (Bytes.of_string status_ok))
      end).

End webhook.

(** ** net/url and the client side of net/http

    [URL] is the type of [*url.URL] values. [parse] is [url.Parse] on an
    address free of control bytes (those are rejected before, see
    [url.Parse] below); [defaultURL] is the value of
    [url.Parse(defaultBaseURL)], whose error [NewClient] discards. *)

Class Net := {
  URL : Type;
  parse : string -> URL + error;
  defaultURL : URL;
  ResolveReference : URL -> URL -> URL;
  URL_String : URL -> string;
  set_RawQuery : URL -> string -> URL;
  Values_Encode : gmap string (list string) -> string;
  Context : Type;
  NewRequestWithContext :
    Context -> string -> string -> option (list byte) -> http.Request + error;
  DefaultClient : http.Request -> http.Response + error
}.

Module url.

(** A control byte is below 0x20 or is 0x7f. *)
Definition stringContainsCTLByte (s : string) : bool :=
  existsb (fun b => (Bytes.to_Z b <? 32) || (Bytes.to_Z b =? 127))
          (Bytes.of_string s).

(** The first result of [strings.Cut(s, "#")]. *)
Fixpoint before_fragment (s : string) : string :=
  match s with
  | EmptyString => EmptyString
  | String c rest =>
      if Ascii.eqb c "#" then EmptyString
      else String c (before_fragment rest)
  end.

(** [url.Parse]: the address without its fragment must be free of control
    bytes; the rest of the parsing is [parse]. *)
Definition Parse `{Net} (rawURL : string) : URL + error :=
  let u := before_fragment rawURL in
  if stringContainsCTLByte u
  then inr (url_Error "parse" u
              (New {| s := "net/url: invalid control character in URL" |}))
  else parse rawURL.

(** The method [Parse] of a URL: [ref] parsed, then resolved against [u]. *)
Definition URL_Parse `{Net} (u : URL) (ref : string) : URL + error :=
  match Parse ref with
  | inr err => inr err
  | inl refURL => inl (ResolveReference u refURL)
  end.

End url.

(** ** The client: [NewClient] and [request] *)

Module client.

Definition defaultBaseURL : string := "https://api.core.stream".
Definition userAgent : string := "corestream-go/1.0".

(** [HTTPClient] interface: [Do]. *)
Definition HTTPClient : Type := http.Request -> http.Response + error.

(** [Client] is the core.stream API client. *)
Record Client `{Net} := {
  baseURL : URL;
  token : string;
  httpClient : HTTPClient
}.

(** [Option] is a functional option: the client as the option leaves it,
    or the option's error. *)
Definition Option `{Net} : Type := Client -> Client + error.

Fixpoint apply `{Net} (opts : list Option) (c : Client) : Client + error :=
  match opts with
  | [] => inl c
  | opt :: rest =>
      match opt c with
      | inr err => inr err
      | inl c' => apply rest c'
      end
  end.

(** [NewClient] creates a new core.stream API client. *)
Definition NewClient `{Net} (token : string) (opts : list Option)
  : Client + error :=
  if String.eqb token "" then inr token_is_required
  else
    let c := {| baseURL := defaultURL; token := token;
                httpClient := DefaultClient |} in
    apply opts c.

(** [WithBaseURL] sets a custom base URL for the API. *)
Definition WithBaseURL `{Net} (baseURL : string) : Option :=
  fun c =>
    match url.Parse baseURL with
    | inr err => inr (invalid_base_URL err)
    | inl u => inl {| baseURL := u; token := token c;
                      httpClient := httpClient c |}
    end.

(** [WithHTTPClient] sets a custom HTTP client; [None] is [nil]. *)
Definition WithHTTPClient `{Net} (httpClient : option HTTPClient)
  : Option :=
  fun c =>
    match httpClient with
    | None => inr HTTP_client_cannot_be_nil
    | Some h => inl {| baseURL := baseURL c; token := token c;
                       httpClient := h |}
    end.

(** A call of [request] writes log lines and ends with a value or with
    the error it returns. *)
Definition Exec (A : Type) : Type := list (list string) * (A + error).

#[export] Instance Exec_ret : MRet Exec := fun A a => ([], inl a).
#[export] Instance Exec_bind : MBind Exec :=
  fun A B k m =>
    match m with
    | (l, inl a) => let '(l', r) := k a in (l ++ l', r)
    | (l, inr e) => (l, inr e)
    end.

(** [return err] *)
Definition fail {A} (e : error) : Exec A := ([], inr e).

(** [x, err := f(...); if err != nil { return wrap(err) }] *)
Definition try {A} (r : A + error) (wrap : error -> error) : Exec A :=
  match r with
  | inl a => mret a
  | inr e => fail (wrap e)
  end.

Definition log_Println (v : list string) : Exec unit := ([v], inl tt).

Definition Header_Set (req : http.Request) (key value : string)
  : http.Request :=
  {| http.Method := http.Method req; http.URL := http.URL req;
     http.Header := http.Header_Set (http.Header req) key value;
     http.Body := http.Body req |}.

(** [request] performs an HTTP request to the API. [query], [body] and
    [result] are [None] for [nil]; the value returned with a [nil] error
    is what [result] then points to. *)
Definition request `{Json} `{Net} (c : Client) (ctx : Context)
    (method path : string) (query : option (gmap string (list string)))
    (body result : option any) : Exec (option any) :=
  u ← try (url.URL_Parse (baseURL c) path) (invalid_path path);
  log_Println ["request"; method; URL_String u];;
  let u := match query with
           | Some q => set_RawQuery u (Values_Encode q)
           | None => u
           end in
  bodyReader ← match body with
               | Some v =>
                   jsonBody ← try (Marshal v) failed_to_encode_request_body;
                   mret (Some jsonBody)
               | None => mret None
               end;
  req ← try (NewRequestWithContext ctx method (URL_String u) bodyReader)
            failed_to_create_request;
  let req := Header_Set req "Authorization" ("Bearer " ++ token c) in
  let req := Header_Set req "User-Agent" userAgent in
  let req := Header_Set req "Accept" "application/json" in
  let req := if not_nil body
             then Header_Set req "Content-Type" "application/json"
             else req in
  resp ← try (httpClient c req) request_failed;
  let '(respBody, err) := io.ReadAll (http.RespBody resp) in
  match err with
  | Some e => fail (failed_to_read_response e)
  | None =>
      if 400 <=? http.StatusCode resp then
        let apiErr := {| StatusCode := http.StatusCode resp;
                         Code := ""; Message := "" |} in
        let apiErr :=
          if (0 <? List.length respBody)%nat then
            match Unmarshal_errResp respBody with
            | inl (code, message) =>
                {| StatusCode := StatusCode apiErr;
                   Code := code; Message := message |}
            | inr _ => apiErr
            end
          else apiErr in
        fail (APIError_ptr apiErr)
      else
        match result with
        | Some v =>
            if (0 <? List.length respBody)%nat then
              v' ← try (Unmarshal respBody v) failed_to_decode_response;
              mret (Some v')
            else mret result
        | None => mret None
        end
  end.

End client.

(** ** Vocabulary of the specification *)

Module spec.

(** A hexadecimal digit of either case. *)
Definition is_hex_digit (c : ascii) : bool :=
  (Ascii.leb "0" c && Ascii.leb c "9")
  || (Ascii.leb "a" c && Ascii.leb c "f")
  || (Ascii.leb "A" c && Ascii.leb c "F").

(** Valid hexadecimal: digits only, an even number of them. *)
Definition valid_hex (s : string) : bool :=
  Nat.even (String.length s)
  && forallb is_hex_digit (list_ascii_of_string s).

(** [generateSignature] of the tests: the lower-case hexadecimal
    HMAC-SHA256 of the body under the secret. *)
Definition generateSignature (body : list byte) (secret : string)
  : string :=
  hex.EncodeToString (hmac.Sum (Bytes.of_string secret) body).

(** The signature the request carries. *)
Definition signature_of (req : http.Request) : string :=
  http.Header_Get (http.Header req) webhook.SignatureHeader.

(** What [ServeHTTP] reads of the request body. *)
Definition read_of {S} (r : webhook.WebhookReceiver S)
    (req : http.Request) : list byte * option error :=
  io.ReadAll (io.LimitReader (http.Body req) (webhook.maxBodySize r)).

(** The world after the response writer was acted on. *)
Definition reply {S}
    (f : http.ResponseWriter -> http.ResponseWriter) (w : webhook.World S)
  : webhook.World S :=
  {| webhook.writer := f (webhook.writer w); webhook.user := webhook.user w;
     webhook.invoked := webhook.invoked w;
     webhook.closed := webhook.closed w |}.

(** The world after the handler ran on [n]. *)
Definition handled {S} (r : webhook.WebhookReceiver S)
    (n : WebhookNotification) (w : webhook.World S) : webhook.World S :=
  {| webhook.writer := webhook.writer w;
     webhook.user := snd (webhook.handler r n (webhook.user w));
     webhook.invoked := webhook.invoked w ++ [n];
     webhook.closed := webhook.closed w |}.

(** The configuration errors of [NewClient] and its options: the missing
    credential, the invalid base address, the invalid transport. *)
Definition construction_error (e : error) : bool :=
  match e with
  | New m =>
      String.eqb (errorString_Error m) "corestream: token is required"
      || String.eqb (errorString_Error m)
           "corestream: HTTP client cannot be nil"
  | invalid_base_URL _ => true
  | _ => false
  end.

(** The configuration errors of the specification: those of construction
    and, by its section 4.1, the failure to resolve the path of a call
    against the base address. *)
Definition configuration_error (e : error) : bool :=
  construction_error e
  || match e with
     | invalid_path _ _ => true
     | _ => false
     end.

(** The address of a call once the query is encoded onto it. *)
Definition target `{Net} (u : URL)
    (query : option (gmap string (list string))) : URL :=
  match query with
  | Some q => set_RawQuery u (Values_Encode q)
  | None => u
  end.

(** The headers [request] sets on the request it sends. *)
Definition with_headers `{Net} (c : client.Client) (has_body : bool)
    (req : http.Request) : http.Request :=
  let req := client.Header_Set req "Authorization"
               ("Bearer " ++ client.token c) in
  let req := client.Header_Set req "User-Agent" client.userAgent in
  let req := client.Header_Set req "Accept" "application/json" in
  if has_body then client.Header_Set req "Content-Type" "application/json"
  else req.

(** The request with another body. *)
Definition with_body (req : http.Request) (b : io.Reader) : http.Request :=
  {| http.Method := http.Method req; http.URL := http.URL req;
     http.Header := http.Header req; http.Body := b |}.

End spec.

Export spec.

(** ** Test doubles

    The stubs the examples run on, after the test files of the package: a
    decoder that knows the bodies of the tests, handlers that count their
    calls, a transport that answers with a fixed response. *)

Module testing.

Definition same (a b : list byte) : bool :=
  String.eqb (Bytes.to_string a) (Bytes.to_string b).

(** The body [{"id":"test"}] and the notification it stands for. *)
Definition body : list byte :=
  Bytes.of_string
    ("{" ++ webhook.quoted "id" ++ ":" ++ webhook.quoted "test" ++ "}").

Definition notification : WebhookNotification :=
  {| ID := "test"; AlertID := ""; StreamID := ""; StreamerID := "";
     MatchedPhrase := ""; ContextText := ""; Timestamp := 0;
     FullTranscript := "" |}.

(** The body [{invalid json}]. *)
Definition invalid_body : list byte := Bytes.of_string "{invalid json}".

(** An error envelope, opaque to the stub but for its identity. *)
Definition envelope : list byte :=
  Bytes.of_string
    ("{" ++ webhook.quoted "error" ++ ":{" ++ webhook.quoted "code" ++ ":"
     ++ webhook.quoted "not_found" ++ "," ++ webhook.quoted "message"
     ++ ":" ++ webhook.quoted "Resource not found" ++ "}}").

#[export] Instance json : Json := {|
  any := list byte;
  Marshal := fun v => inl v;
  Unmarshal := fun data _ => inl data;
  Unmarshal_WebhookNotification := fun b =>
    if same b body then inl notification
    else inr (External "invalid character");
  Unmarshal_errResp := fun b =>
    if same b envelope then inl ("not_found", "Resource not found")
    else inr (External "invalid character")
|}.

(** Handlers on a counter of their calls. *)
Definition accept : webhook.WebhookHandler nat :=
  fun _ calls => (None, S calls).
Definition reject : webhook.WebhookHandler nat :=
  fun _ calls => (Some (External "handler failed"), S calls).

Definition fresh : webhook.World nat :=
  {| webhook.writer := http.NewRecorder; webhook.user := O;
     webhook.invoked := []; webhook.closed := false |}.

(** [httptest.NewRequest(method, "/webhook", bytes.NewReader(body))], with
    the signature header set when [signature] is given. *)
Definition NewRequest (method : string) (body : list byte)
    (signature : option string) : http.Request :=
  {| http.Method := method; http.URL := "/webhook";
     http.Header :=
       match signature with
       | Some v => http.Header_Set ∅ webhook.SignatureHeader v
       | None => ∅
       end;
     http.Body := {| io.data := body; io.err := None |} |}.

(** A reader that fails after [data]. *)
Definition failing (data : list byte) : io.Reader :=
  {| io.data := data; io.err := Some (External "unexpected EOF") |}.

#[export] Instance net : Net := {|
  URL := string;
  parse := fun s => inl s;
  defaultURL := "https://api.core.stream";
  ResolveReference := fun base ref : string => (base ++ ref)%string;
  URL_String := fun u => u;
  set_RawQuery := fun u q : string => (u ++ "?" ++ q)%string;
  Values_Encode := fun _ => EmptyString;
  Context := unit;
  NewRequestWithContext := fun _ method u body =>
    inl {| http.Method := method; http.URL := u; http.Header := ∅;
           http.Body := {| io.data := default [] body; io.err := None |} |};
  DefaultClient := fun _ => inr (External "no network")
|}.

(** A transport that answers every request with [code] and [body]. *)
Definition respond (code : Z) (body : list byte) : client.HTTPClient :=
  fun _ => inl {| http.StatusCode := code;
                  http.RespBody := {| io.data := body; io.err := None |} |}.

(** The receiver of the tests. *)
Definition receiver : webhook.WebhookReceiver nat :=
  webhook.NewWebhookReceiver "test-secret" accept [].

(** What a call of [ServeHTTP] leaves: status, body, the handler's
    counter and its calls. *)
Definition served (r : webhook.WebhookReceiver nat) (req : http.Request)
  : option Z * list byte * nat * list WebhookNotification :=
  let w := snd (webhook.ServeHTTP r req fresh) in
  (http.W_Code (webhook.writer w), http.W_Body (webhook.writer w),
   webhook.user w, webhook.invoked w).

(** A transport that answers 200 and [{}] to the requests that carry the
    bearer token [test-token], and fails on the others. *)
Definition authorized : client.HTTPClient :=
  fun req =>
    if String.eqb (http.Header_Get (http.Header req) "Authorization")
                  "Bearer test-token"
    then inl {| http.StatusCode := 200;
                http.RespBody := {| io.data := Bytes.of_string "{}";
                                    io.err := None |} |}
    else inr (External "unauthorized").

(** The client of the tests, on a transport that answers 404 with the
    envelope. *)
Definition client_404 : client.Client :=
  {| client.baseURL := defaultURL; client.token := "test-token";
     client.httpClient := respond 404 envelope |}.

(** An alert path whose identifier is a line feed. *)
Definition line_feed_path : string :=
  "/v2/alerts/" ++ String "010" EmptyString.

End testing.

(** ** strconv and fmt: decimal numerals *)

Module strconv.

(** [strconv.Itoa], and the verb [%d] of [fmt] on an [int]: the decimal
    numeral, with a minus sign before a negative number. *)
Definition Itoa (i : Z) : string := pretty i.

End strconv.

(** ** errors.go: the message of an [*APIError] *)

(** The method [Error] of an [*APIError]: [fmt.Sprintf] on the verbs [%s]
    and [%d]. *)
Definition APIError_Error (e : APIError) : string :=
  if negb (String.eqb (Message e) "")
  then "corestream: " ++ Message e ++ " (status "
       ++ strconv.Itoa (StatusCode e) ++ ", code " ++ Code e ++ ")"
  else "corestream: request failed with status "
       ++ strconv.Itoa (StatusCode e).

(** ** The resource methods: alerts.go, webhooks.go, streams.go,
    streamers.go and the usage file

    A method hands [request] a pointer to a local variable of the response
    type and returns the pointer, or [nil] with the error of [request].
    [zero t] is the zero value of the Go type [t]; [Stream_of] is the field
    [Stream] of a [GetStreamResponse]. A request value ([*CreateAlertRequest]
    and the like, [nil] included) is an [any]: as an [interface{}] argument
    it is never [nil]. *)

Inductive GoType :=
| ListAlertsResponse | Alert | ListNotificationsResponse | Webhook
| ListStreamsResponse | SearchStreamsResponse | GetStreamResponse
| TranscriptResponse | Streamer | MonthlyUsageResponse.

Class Types `{Json} := {
  zero : GoType -> any;
  Stream_of : any -> any
}.

Module resources.

#[local] Existing Instance client.Exec_ret.
#[local] Existing Instance client.Exec_bind.

Definition MethodPut : string := "PUT".
Definition MethodDelete : string := "DELETE".

(** [url.Values{}] and [Values.Set]. *)
Definition Values : Type := gmap string (list string).
Definition Values_Set (v : Values) (key value : string) : Values :=
  <[key := [value]]> v.

(** [if cond { query.Set(key, value) }] *)
Definition set_if (cond : bool) (key value : string) (v : Values) : Values :=
  if cond then Values_Set v key value else v.

(** [var resp T; if err := c.request(..., &resp); err != nil { return nil,
    err }; return &resp, nil]: the value behind the pointer returned. *)
Definition into `{Json} `{Net} `{!Types} (t : GoType)
    (call : option any -> client.Exec (option any)) : client.Exec any :=
  r ← call (Some (zero t));
  mret (default (zero t) r).

(** [return c.request(..., nil)] *)
Definition plain `{Json} (m : client.Exec (option any)) : client.Exec unit :=
  _ ← m; mret tt.

Section Methods.

Context `{Json} `{Net} `{!Types}.

(** [ListAlerts] returns all alerts for the authenticated user. *)
Definition ListAlerts (c : client.Client) (ctx : Context)
    (page pageSize : Z) : client.Exec any :=
  let query : Values := ∅ in
  let query := set_if (0 <? page) "page" (strconv.Itoa page) query in
  let query :=
    set_if (0 <? pageSize) "page_size" (strconv.Itoa pageSize) query in
  into ListAlertsResponse
    (client.request c ctx http.MethodGet "/v2/alerts" (Some query) None).

(** [CreateAlert] creates a new alert. *)
Definition CreateAlert (c : client.Client) (ctx : Context) (req : any)
  : client.Exec any :=
  into Alert
    (client.request c ctx http.MethodPost "/v2/alerts" None (Some req)).

(** [GetAlert] retrieves a specific alert by ID. *)
Definition GetAlert (c : client.Client) (ctx : Context) (alertID : string)
  : client.Exec any :=
  let path := ("/v2/alerts/" ++ alertID)%string in
  into Alert (client.request c ctx http.MethodGet path None None).

(** [UpdateAlert] updates an existing alert. *)
Definition UpdateAlert (c : client.Client) (ctx : Context)
    (alertID : string) (req : any) : client.Exec any :=
  let path := ("/v2/alerts/" ++ alertID)%string in
  into Alert (client.request c ctx MethodPut path None (Some req)).

(** [DeleteAlert] permanently deletes an alert. *)
Definition DeleteAlert (c : client.Client) (ctx : Context)
    (alertID : string) : client.Exec unit :=
  let path := ("/v2/alerts/" ++ alertID)%string in
  plain (client.request c ctx MethodDelete path None None None).

(** [GetAlertNotifications] retrieves notifications for a specific alert. *)
Definition GetAlertNotifications (c : client.Client) (ctx : Context)
    (alertID : string) (page pageSize : Z) : client.Exec any :=
  let path := ("/v2/alerts/" ++ alertID ++ "/notifications")%string in
  let query : Values := ∅ in
  let query := set_if (0 <? page) "page" (strconv.Itoa page) query in
  let query :=
    set_if (0 <? pageSize) "page_size" (strconv.Itoa pageSize) query in
  into ListNotificationsResponse
    (client.request c ctx http.MethodGet path (Some query) None).

(** [CreateWebhook] creates a webhook for an alert. *)
Definition CreateWebhook (c : client.Client) (ctx : Context)
    (alertID : string) (req : any) : client.Exec any :=
  let path := ("/v2/alerts/" ++ alertID ++ "/webhook")%string in
  into Webhook (client.request c ctx http.MethodPost path None (Some req)).

(** [GetWebhook] retrieves the webhook configuration for an alert. *)
Definition GetWebhook (c : client.Client) (ctx : Context)
    (alertID : string) : client.Exec any :=
  let path := ("/v2/alerts/" ++ alertID ++ "/webhook")%string in
  into Webhook (client.request c ctx http.MethodGet path None None).

(** [UpdateWebhook] updates the webhook configuration for an alert. *)
Definition UpdateWebhook (c : client.Client) (ctx : Context)
    (alertID : string) (req : any) : client.Exec any :=
  let path := ("/v2/alerts/" ++ alertID ++ "/webhook")%string in
  into Webhook (client.request c ctx MethodPut path None (Some req)).

(** [DeleteWebhook] removes the webhook configuration from an alert. *)
Definition DeleteWebhook (c : client.Client) (ctx : Context)
    (alertID : string) : client.Exec unit :=
  let path := ("/v2/alerts/" ++ alertID ++ "/webhook")%string in
  plain (client.request c ctx MethodDelete path None None None).

(** [TestWebhook] sends a test webhook notification. *)
Definition TestWebhook (c : client.Client) (ctx : Context)
    (alertID : string) (req : any) : client.Exec unit :=
  let path := ("/v2/alerts/" ++ alertID ++ "/webhook/test")%string in
  plain (client.request c ctx http.MethodPost path None (Some req) None).

(** [ListStreams] returns a paginated list of streams. *)
Definition ListStreams (c : client.Client) (ctx : Context)
    (page pageSize : Z) (streamerID : string) : client.Exec any :=
  let query : Values := ∅ in
  let query := set_if (0 <? page) "page" (strconv.Itoa page) query in
  let query :=
    set_if (0 <? pageSize) "page_size" (strconv.Itoa pageSize) query in
  let query :=
    set_if (negb (String.eqb streamerID "")) "streamer_id" streamerID
      query in
  into ListStreamsResponse
    (client.request c ctx http.MethodGet "/v2/streams" (Some query) None).

(** [SearchStreams] searches for streams by keywords or phrases. *)
Definition SearchStreams (c : client.Client) (ctx : Context)
    (query : string) (page pageSize : Z) (timeRange : string)
  : client.Exec any :=
  let params : Values := ∅ in
  let params := Values_Set params "q" query in
  let params := set_if (0 <? page) "page" (strconv.Itoa page) params in
  let params :=
    set_if (0 <? pageSize) "page_size" (strconv.Itoa pageSize) params in
  let params :=
    set_if (negb (String.eqb timeRange "")) "time_range" timeRange params in
  into SearchStreamsResponse
    (client.request c ctx http.MethodGet "/v2/streams/search" (Some params)
       None).

(** [GetStream] retrieves a specific stream: the field [Stream] of the
    response. *)
Definition GetStream (c : client.Client) (ctx : Context) (streamID : string)
  : client.Exec any :=
  let path := ("/v2/streams/" ++ streamID)%string in
  resp ← into GetStreamResponse
           (client.request c ctx http.MethodGet path None None);
  mret (Stream_of resp).

(** [GetStreamTranscript] retrieves the full transcript of a stream. *)
Definition GetStreamTranscript (c : client.Client) (ctx : Context)
    (streamID : string) : client.Exec any :=
  let path := ("/v2/streams/" ++ streamID ++ "/transcript")%string in
  into TranscriptResponse
    (client.request c ctx http.MethodGet path None None).

(** [GetStreamer] retrieves a specific streamer. *)
Definition GetStreamer (c : client.Client) (ctx : Context)
    (streamerID : string) : client.Exec any :=
  let path := ("/v2/streamers/" ++ streamerID)%string in
  into Streamer (client.request c ctx http.MethodGet path None None).

(** [GetMonthlyUsage] retrieves monthly API usage. *)
Definition GetMonthlyUsage (c : client.Client) (ctx : Context)
  : client.Exec any :=
  into MonthlyUsageResponse
    (client.request c ctx http.MethodGet "/v2/usage/monthly" None None).

End Methods.

End resources.

(** ** examples/webhook/main.go *)

Module example.

(** [truncate]: [s] when it has at most [maxLen] bytes, else [s[:maxLen]],
    which panics ([None]) on a negative bound. *)
Definition truncate (s : string) (maxLen : Z) : option string :=
  if Z.of_nat (String.length s) <=? maxLen then Some s
  else if maxLen <? 0 then None
  else Some (substring 0 (Z.to_nat maxLen) s).

End example.

(** ** Further vocabulary *)

Module props.

(** [strings.ToUpper] on ASCII. *)
Definition upper (c : ascii) : ascii :=
  if Ascii.leb "a" c && Ascii.leb c "z"
  then ascii_of_nat (nat_of_ascii c - 32)
  else c.

Fixpoint ToUpper (s : string) : string :=
  match s with
  | EmptyString => EmptyString
  | String c rest => String (upper c) (ToUpper rest)
  end.

(** The request with other headers. *)
Definition with_header (req : http.Request)
    (h : gmap string (list string)) : http.Request :=
  {| http.Method := http.Method req; http.URL := http.URL req;
     http.Header := h; http.Body := http.Body req |}.

(** The request carries the credentials and the fixed headers of [c]. *)
Definition carries `{Net} (c : client.Client) (req : http.Request) : bool :=
  String.eqb (http.Header_Get (http.Header req) "Authorization")
             ("Bearer " ++ client.token c)
  && String.eqb (http.Header_Get (http.Header req) "User-Agent")
                client.userAgent
  && String.eqb (http.Header_Get (http.Header req) "Accept")
                "application/json".

(** The client [c] on a transport that turns down, without sending them,
    the requests for which [ok] fails. *)
Definition guarded `{Net} (ok : http.Request -> bool) (c : client.Client)
  : client.Client :=
  {| client.baseURL := client.baseURL c; client.token := client.token c;
     client.httpClient := fun req =>
       if ok req then client.httpClient c req
       else inr (External "not sent") |}.

(** The request announces a JSON body. *)
Definition announces_json (req : http.Request) : bool :=
  String.eqb (http.Header_Get (http.Header req) "Content-Type")
             "application/json".

(** The options the package exports. *)
Inductive exported `{Net} : client.Option -> Prop :=
| exported_WithBaseURL (baseURL : string) :
    exported (client.WithBaseURL baseURL)
| exported_WithHTTPClient (h : option client.HTTPClient) :
    exported (client.WithHTTPClient h).

End props.

(** ** Further vocabulary: the stages of [request] *)

Module stages.

(** The body of the request sent: the JSON of [body], or none. *)
Definition encoded `{Json} (body : option any)
  : option (list byte) + error :=
  match body with
  | Some v =>
      match Marshal v with
      | inl jsonBody => inl (Some jsonBody)
      | inr e => inr e
      end
  | None => inl None
  end.

(** What [request] makes of a response that was read. *)
Definition answer `{Json} (result : option any) (resp : http.Response)
    (respBody : list byte) : option any + error :=
  if 400 <=? http.StatusCode resp then
    inr (APIError_ptr
           (if (0 <? List.length respBody)%nat then
              match Unmarshal_errResp respBody with
              | inl (code, message) =>
                  {| StatusCode := http.StatusCode resp;
                     Code := code; Message := message |}
              | inr _ =>
                  {| StatusCode := http.StatusCode resp;
                     Code := ""; Message := "" |}
              end
            else {| StatusCode := http.StatusCode resp;
                    Code := ""; Message := "" |}))
  else
    match result with
    | Some v =>
        if (0 <? List.length respBody)%nat then
          match Unmarshal respBody v with
          | inl v' => inl (Some v')
          | inr e => inr (failed_to_decode_response e)
          end
        else inl result
    | None => inl None
    end.

End stages.

(** ** Further test doubles *)

Module fixtures.

#[export] Instance types : Types (H := testing.json) :=
  Build_Types testing.json (fun _ => @nil byte) (fun v => v).

(** The client of the tests, on a transport that answers 204 with a body
    that is no JSON. *)
Definition client_204 : client.Client (H := testing.net) :=
  {| client.baseURL := defaultURL; client.token := "test-token";
     client.httpClient := testing.respond 204 testing.invalid_body |}.

End fixtures.

(** * Properties *)

(** ** encoding/hex *)

Section Hex.

Lemma Bytes_to_Z_inj (a b : byte) : Bytes.to_Z a = Bytes.to_Z b -> a = b.
Proof.
  unfold Bytes.to_Z. intros E. apply N2Z.inj in E.
  apply (f_equal Byte.of_N) in E. rewrite !Byte.of_to_N in E.
  congruence.
Qed.

Lemma DecodeString_digits (v : byte) (rest : string) :
  hex.DecodeString
    (String (hex.hexdigit (Z.shiftr (Bytes.to_Z v) 4))
       (String (hex.hexdigit (Z.land (Bytes.to_Z v) 15)) rest))
  = let '(out, err) := hex.DecodeString rest in (v :: out, err).
Proof. destruct v; reflexivity. Qed.

(** Decoding what was encoded gives the bytes back, without error. *)
Lemma DecodeString_EncodeToString (src : list byte) :
  hex.DecodeString (hex.EncodeToString src) = (src, None).
Proof.
  induction src as [|v src IH].
  - reflexivity.
  - cbn [hex.EncodeToString]. rewrite DecodeString_digits, IH. reflexivity.
Qed.

Lemma is_hex_digit_reverseHexTable (c : ascii) :
  spec.is_hex_digit c
  = negb (15 <? hex.reverseHexTable (byte_of_ascii c)).
Proof. destruct c as [[] [] [] [] [] [] [] []]; reflexivity. Qed.

(** Induction on a string two characters at a time. *)
Lemma string_pair_ind (P : string -> Prop) :
  P EmptyString ->
  (forall p, P (String p EmptyString)) ->
  (forall p q rest, P rest -> P (String p (String q rest))) ->
  forall s, P s.
Proof.
  intros H0 H1 H2.
  assert (forall s, P s /\ forall p, P (String p s)) as H.
  { intros s. induction s as [|c s [IH IH']].
    - split; auto.
    - split; [apply IH'|]. intros p. apply H2, IH. }
  intros s. apply H.
Qed.

(** [DecodeString] reports an error exactly on the strings that are not
    valid hexadecimal. *)
Lemma DecodeString_error_iff (s : string) :
  snd (hex.DecodeString s) = None <-> spec.valid_hex s = true.
Proof.
  unfold spec.valid_hex.
  induction s as [|p|p q rest IH] using string_pair_ind.
  - cbn. tauto.
  - cbn. destruct (15 <? _); cbn; split; discriminate.
  - cbn [hex.DecodeString String.length list_ascii_of_string forallb
           Nat.even].
    rewrite !is_hex_digit_reverseHexTable.
    rewrite !andb_true_iff, !negb_true_iff.
    rewrite andb_true_iff in IH.
    destruct (15 <? hex.reverseHexTable (byte_of_ascii p)).
    { cbn [snd]. split; [discriminate | intros (_ & F & _); discriminate F]. }
    destruct (15 <? hex.reverseHexTable (byte_of_ascii q)).
    { cbn [snd].
      split; [discriminate | intros (_ & _ & F & _); discriminate F]. }
    destruct (hex.DecodeString rest) as [out err]. cbn [snd] in *.
    tauto.
Qed.

End Hex.

(** ** crypto/hmac *)

Section Hmac.

Lemma be_length (width : nat) (x : Z) :
  List.length (sha256.be width x) = width.
Proof.
  unfold sha256.be.
  rewrite List.length_map, List.length_rev, List.length_seq. reflexivity.
Qed.

Lemma Sum256_length (data : list byte) :
  List.length (sha256.Sum256 data) = 32%nat.
Proof.
  unfold sha256.Sum256. cbv zeta.
  rewrite !List.length_app, !be_length. reflexivity.
Qed.

(** A MAC has [sha256.Size] bytes. *)
Lemma Sum_length (key message : list byte) :
  List.length (hmac.Sum key message) = 32%nat.
Proof. unfold hmac.Sum. apply Sum256_length. Qed.

Lemma xor_fold_zero (x y : list byte) :
  List.length x = List.length y ->
  forall v, 0 <= v -> hmac.xor_fold x y v = 0 <-> v = 0 /\ x = y.
Proof.
  revert y. induction x as [|a x IH]; intros [|b y] L v Hv;
    try discriminate L; cbn [hmac.xor_fold].
  - tauto.
  - injection L as L.
    assert (0 <= Z.lxor (Bytes.to_Z a) (Bytes.to_Z b)) as Hx.
    { apply Z.lxor_nonneg. unfold Bytes.to_Z. lia. }
    rewrite (IH y L) by (apply Z.lor_nonneg; lia).
    rewrite Z.lor_eq_0_iff, Z.lxor_eq_0_iff.
    split.
    + intros [[-> E] ->]. apply Bytes_to_Z_inj in E. subst. auto.
    + intros [-> E]. injection E as -> ->. auto.
Qed.

(** The constant-time comparison decides equality. *)
Lemma Equal_iff (mac1 mac2 : list byte) :
  hmac.Equal mac1 mac2 = true <-> mac1 = mac2.
Proof.
  unfold hmac.Equal, hmac.ConstantTimeCompare.
  destruct (List.length mac1 =? List.length mac2)%nat eqn:L; cbn [negb].
  - apply Nat.eqb_eq in L.
    pose proof (xor_fold_zero mac1 mac2 L 0 (Z.le_refl 0)) as X.
    destruct (hmac.xor_fold mac1 mac2 0 =? 0) eqn:F.
    + apply Z.eqb_eq in F. split; [intros _; apply X, F | reflexivity].
    + apply Z.eqb_neq in F. split; [discriminate|].
      intros E. exfalso. apply F, X. auto.
  - apply Nat.eqb_neq in L. split; [discriminate|].
    intros ->. contradiction.
Qed.

End Hmac.

(** ** The receiver *)

Section Receiver.

Context `{Json} {S : Type}.
Implicit Types (r : webhook.WebhookReceiver S) (req : http.Request)
               (w : webhook.World S).

Ltac run :=
  cbv [mbind mret webhook.Serve_bind webhook.Serve_ret webhook.bind
       webhook.pure webhook.when webhook.return_ webhook.defer
       webhook.on_writer webhook.call not_nil negb andb orb fst snd].

(** [ServeHTTP], stage by stage. *)
Lemma ServeHTTP_stages r req w :
  snd (webhook.ServeHTTP r req w) =
  if negb (String.eqb (http.Method req) http.MethodPost)
  then reply (http.Error "method not allowed" 405) w
  else
    match snd (read_of r req) with
    | Some _ => reply (http.Error "failed to read body" 400) w
    | None =>
        webhook.Body_Close
          (if negb (webhook.skipVerification r)
              && String.eqb (signature_of req) ""
           then reply (http.Error
                         (errorString_Error ErrMissingSignature) 401) w
           else if negb (webhook.skipVerification r)
                   && negb (webhook.verifySignature (fst (read_of r req))
                              (signature_of req) (webhook.secret r))
           then reply (http.Error
                         (errorString_Error ErrInvalidSignature) 401) w
           else
             match webhook.ParseWebhookNotification (fst (read_of r req))
             with
             | inr _ => reply (http.Error "invalid payload" 400) w
             | inl n =>
                 match fst (webhook.handler r n (webhook.user w)) with
                 | Some _ =>
                     reply (http.Error "handler error" 500) (handled r n w)
                 | None =>
                     reply (fun rw =>
                              http.Write (Bytes.of_string webhook.status_ok)
                                (http.WriteHeader 200 rw))
                           (handled r n w)
                 end
             end)
    end.
Proof.
  unfold webhook.ServeHTTP, read_of, signature_of, reply, handled.
  destruct (String.eqb (http.Method req) http.MethodPost); [|reflexivity].
  destruct (io.ReadAll _) as [body [e|]]; [reflexivity|].
  destruct (webhook.skipVerification r).
  - run. destruct (webhook.ParseWebhookNotification body) as [n|e];
      [|reflexivity].
    run. destruct (webhook.handler r n (webhook.user w)) as [[e|] u];
      reflexivity.
  - run. destruct (String.eqb _ ""); [reflexivity|].
    destruct (webhook.verifySignature _ _ _); [|reflexivity].
    destruct (webhook.ParseWebhookNotification body) as [n|e];
      [|reflexivity].
    run. destruct (webhook.handler r n (webhook.user w)) as [[e|] u];
      reflexivity.
Qed.

Lemma stage_method_iff req :
  negb (String.eqb (http.Method req) http.MethodPost) = false
  <-> http.Method req = http.MethodPost.
Proof. rewrite negb_false_iff. apply String.eqb_eq. Qed.

Lemma invoked_reply f w :
  webhook.invoked (reply f w) = webhook.invoked w.
Proof. reflexivity. Qed.

Lemma invoked_Body_Close w :
  webhook.invoked (webhook.Body_Close w) = webhook.invoked w.
Proof. reflexivity. Qed.

Lemma Error_code (msg : string) (code : Z) (rw : http.ResponseWriter) :
  http.W_Code rw = None -> http.W_Code (http.Error msg code rw) = Some code.
Proof.
  intros E. unfold http.Error, http.Write, http.WriteHeader.
  cbn. rewrite E. reflexivity.
Qed.

Lemma Error_body (msg : string) (code : Z) (rw : http.ResponseWriter) :
  http.W_Body (http.Error msg code rw)
  = http.W_Body rw ++ Bytes.of_string msg ++ [x0a].
Proof.
  unfold http.Error, http.Write, http.WriteHeader. cbn.
  destruct (http.W_Code rw); reflexivity.
Qed.

Lemma acknowledge_code (b : list byte) (rw : http.ResponseWriter) :
  http.W_Code rw = None ->
  http.W_Code (http.Write b (http.WriteHeader 200 rw)) = Some 200.
Proof.
  intros E. unfold http.Write, http.WriteHeader. cbn. rewrite E.
  reflexivity.
Qed.

Lemma acknowledge_body (b : list byte) (rw : http.ResponseWriter) :
  http.W_Body (http.Write b (http.WriteHeader 200 rw)) = http.W_Body rw ++ b.
Proof.
  unfold http.Write, http.WriteHeader. cbn.
  destruct (http.W_Code rw) eqn:E; cbn; rewrite ?E; reflexivity.
Qed.

(** The acknowledgement, byte by byte: [{"status":"ok"}]. *)
Lemma status_ok_bytes :
  Bytes.of_string webhook.status_ok
  = [x7b; x22; x73; x74; x61; x74; x75; x73; x22; x3a;
     x22; x6f; x6b; x22; x7d].
Proof. reflexivity. Qed.

(** A signature that is not valid hexadecimal does not verify. *)
Lemma verifySignature_malformed (body : list byte) (signature : string)
    (secret : list byte) :
  valid_hex signature = false ->
  webhook.verifySignature body signature secret = false.
Proof.
  intros V. unfold webhook.verifySignature.
  destruct (hex.DecodeString signature) as [out [e|]] eqn:D;
    [reflexivity|].
  pose proof (proj1 (DecodeString_error_iff signature)) as X.
  rewrite D in X. rewrite X in V by reflexivity. discriminate V.
Qed.

(** C1. The handler is invoked at most once by a call of [ServeHTTP]:
    the calls recorded afterwards are those recorded before, or those
    and one more, on a notification [n]; and in the second case the
    method is POST, the body was read without error, verification is
    disabled or the signature header is set and verifies against the
    body read, and [n] is what the body read decodes to. *)
Theorem handler_invoked_once_after_validation r req w :
  webhook.invoked (snd (webhook.ServeHTTP r req w)) = webhook.invoked w
  \/ exists n,
       webhook.invoked (snd (webhook.ServeHTTP r req w))
       = webhook.invoked w ++ [n]
       /\ http.Method req = http.MethodPost
       /\ snd (read_of r req) = None
       /\ (webhook.skipVerification r = true
           \/ signature_of req <> EmptyString
              /\ webhook.verifySignature (fst (read_of r req))
                   (signature_of req) (webhook.secret r) = true)
       /\ webhook.ParseWebhookNotification (fst (read_of r req)) = inl n.
Proof.
  rewrite ServeHTTP_stages.
  destruct (negb (String.eqb (http.Method req) http.MethodPost)) eqn:M;
    [left; reflexivity|].
  apply stage_method_iff in M.
  destruct (snd (read_of r req)) as [e|] eqn:R; [left; reflexivity|].
  rewrite invoked_Body_Close.
  destruct (negb (webhook.skipVerification r)
            && String.eqb (signature_of req) "") eqn:G;
    [left; reflexivity|].
  destruct (negb (webhook.skipVerification r)
            && negb (webhook.verifySignature (fst (read_of r req))
                       (signature_of req) (webhook.secret r))) eqn:V;
    [left; reflexivity|].
  destruct (webhook.ParseWebhookNotification (fst (read_of r req)))
    as [n|e] eqn:P; [|left; reflexivity].
  right. exists n.
  split.
  { destruct (fst (webhook.handler r n (webhook.user w))); reflexivity. }
  repeat split; try assumption.
  destruct (webhook.skipVerification r); [left; reflexivity|right].
  cbn [negb andb] in G, V. apply negb_false_iff in V.
  split; [|exact V].
  intros E. rewrite E in G. discriminate G.
Qed.

(** C2. With verification enabled and nothing written to the response
    yet, the status of the response is that of the first stage that
    fails: 405 for a method other than POST; 400 when the body cannot be
    read; 401 when the signature header is missing, when it is not valid
    hexadecimal and when it does not verify; 400 when the body read does
    not decode; 500 when the handler returns an error; and otherwise 200
    with the body [{"status":"ok"}] and nothing else. *)
Theorem ServeHTTP_status_of_first_failure r req w :
  webhook.skipVerification r = false ->
  http.W_Code (webhook.writer w) = None ->
  http.W_Body (webhook.writer w) = [] ->
  let rw := webhook.writer (snd (webhook.ServeHTTP r req w)) in
  let body := fst (read_of r req) in
  let verified :=
    webhook.verifySignature body (signature_of req) (webhook.secret r) in
  (http.Method req <> http.MethodPost -> http.W_Code rw = Some 405)
  /\ (http.Method req = http.MethodPost ->
      (snd (read_of r req) <> None -> http.W_Code rw = Some 400)
      /\ (snd (read_of r req) = None ->
          (signature_of req = EmptyString -> http.W_Code rw = Some 401)
          /\ (signature_of req <> EmptyString ->
              (valid_hex (signature_of req) = false ->
               http.W_Code rw = Some 401)
              /\ (verified = false -> http.W_Code rw = Some 401)
              /\ (verified = true ->
                  (forall e,
                     webhook.ParseWebhookNotification body = inr e ->
                     http.W_Code rw = Some 400)
                  /\ (forall n,
                        webhook.ParseWebhookNotification body = inl n ->
                        (fst (webhook.handler r n (webhook.user w)) <> None
                         -> http.W_Code rw = Some 500)
                        /\ (fst (webhook.handler r n (webhook.user w))
                            = None ->
                            http.W_Code rw = Some 200
                            /\ http.W_Body rw
                               = Bytes.of_string webhook.status_ok)))))).
Proof.
  intros Skip Code Body rw body verified. subst rw.
  rewrite ServeHTTP_stages, Skip. cbn [negb andb].
  split.
  { intros M. apply String.eqb_neq in M. unfold http.MethodPost in *.
    rewrite M. cbn. rewrite Code. reflexivity. }
  intros M. apply String.eqb_eq in M. unfold http.MethodPost in *.
  rewrite M. cbn [negb]. split.
  { intros R. destruct (snd (read_of r req)); [|contradiction].
    apply Error_code, Code. }
  intros R. rewrite R. split.
  { intros E. rewrite E. apply Error_code, Code. }
  intros E. apply String.eqb_neq in E. rewrite E.
  assert (verified = false ->
          http.W_Code
            (webhook.writer
               (webhook.Body_Close
                  (if negb verified
                   then reply (http.Error
                                 (errorString_Error ErrInvalidSignature)
                                 401) w
                   else
                     match webhook.ParseWebhookNotification body with
                     | inl n =>
                         match
                           fst (webhook.handler r n (webhook.user w))
                         with
                         | Some _ =>
                             reply (http.Error "handler error" 500)
                                   (handled r n w)
                         | None =>
                             reply (fun rw =>
                                      http.Write
                                        (Bytes.of_string webhook.status_ok)
                                        (http.WriteHeader 200 rw))
                                   (handled r n w)
                         end
                     | inr _ => reply (http.Error "invalid payload" 400) w
                     end))) = Some 401) as Mismatch.
  { intros ->. apply Error_code, Code. }
  split; [|split].
  - intros V. apply Mismatch. apply verifySignature_malformed, V.
  - exact Mismatch.
  - intros V. fold body verified. rewrite V. cbn [negb]. split.
    + intros e ->. apply Error_code, Code.
    + intros n ->. split.
      * intros F.
        destruct (fst (webhook.handler r n (webhook.user w)));
          [|contradiction].
        apply Error_code, Code.
      * intros ->. split.
        -- apply acknowledge_code, Code.
        -- cbn [webhook.writer webhook.Body_Close reply handled].
           rewrite acknowledge_body, Body. reflexivity.
Qed.

(** A MAC is not empty, so neither is its hexadecimal form. *)
Lemma verifySignature_empty (body secret : list byte) :
  webhook.verifySignature body EmptyString secret = false.
Proof.
  unfold webhook.verifySignature. cbn.
  destruct (hmac.Equal [] (hmac.Sum secret body)) eqn:E; [|reflexivity].
  apply Equal_iff in E. apply (f_equal (@List.length byte)) in E.
  rewrite Sum_length in E. discriminate E.
Qed.

(** Signing, then verifying under the same secret, succeeds. *)
Lemma verifySignature_signed (body secret : list byte) :
  webhook.verifySignature body
    (hex.EncodeToString (hmac.Sum secret body)) secret = true.
Proof.
  unfold webhook.verifySignature.
  rewrite DecodeString_EncodeToString. apply Equal_iff. reflexivity.
Qed.

Lemma EncodeToString_Sum_not_empty (key message : list byte) :
  hex.EncodeToString (hmac.Sum key message) <> EmptyString.
Proof.
  pose proof (Sum_length key message) as L.
  destruct (hmac.Sum key message); [discriminate L|].
  cbn. discriminate.
Qed.

Lemma LimitReader_idempotent (b : io.Reader) (n : Z) :
  io.LimitReader (io.LimitReader b n) n = io.LimitReader b n.
Proof.
  unfold io.LimitReader.
  destruct (Z.of_nat (List.length (io.data b)) <? n) eqn:L.
  - rewrite L. reflexivity.
  - cbn [io.data]. apply Z.ltb_ge in L.
    assert ((Z.of_nat (List.length (take (Z.to_nat n) (io.data b))) <? n)
            = false) as ->.
    { apply Z.ltb_ge. rewrite length_take. lia. }
    rewrite take_take, Nat.min_id. reflexivity.
Qed.

(** Serving a request is serving the request whose body ends at the
    limit. *)
Lemma ServeHTTP_limited r req :
  webhook.ServeHTTP r req
  = webhook.ServeHTTP r
      (with_body req
         (io.LimitReader (http.Body req) (webhook.maxBodySize r))).
Proof.
  unfold webhook.ServeHTTP, with_body.
  cbn [http.Method http.Header http.Body].
  rewrite LimitReader_idempotent. reflexivity.
Qed.

(** C6. A receiver is built with the limit of 1,048,576 bytes, with or
    without verification; what [ServeHTTP] reads of a body is a prefix of
    it of at most [maxBodySize] bytes; and serving a request is serving
    the request whose body ends at the limit: no stage of [ServeHTTP],
    verification and parsing included, depends on a byte behind the
    limit. *)
Theorem body_read_within_limit r req (secret : string)
    (h : webhook.WebhookHandler S) :
  webhook.maxBodySize (webhook.NewWebhookReceiver secret h []) = 1048576
  /\ webhook.maxBodySize
       (webhook.NewWebhookReceiver secret h
          [webhook.WithoutSignatureVerification]) = 1048576
  /\ Z.of_nat (List.length (fst (read_of r req)))
     <= Z.max 0 (webhook.maxBodySize r)
  /\ fst (read_of r req) `prefix_of` io.data (http.Body req)
  /\ webhook.ServeHTTP r req
     = webhook.ServeHTTP r
         (with_body req
            (io.LimitReader (http.Body req) (webhook.maxBodySize r))).
Proof.
  split; [reflexivity|]. split; [reflexivity|].
  unfold read_of, io.ReadAll. cbn [fst].
  split; [|split].
  - unfold io.LimitReader.
    destruct (Z.of_nat (List.length (io.data (http.Body req)))
              <? webhook.maxBodySize r) eqn:L.
    + apply Z.ltb_lt in L. lia.
    + cbn [io.data]. rewrite length_take. lia.
  - unfold io.LimitReader.
    destruct (Z.of_nat (List.length (io.data (http.Body req)))
              <? webhook.maxBodySize r).
    + reflexivity.
    + cbn [io.data]. apply prefix_take.
  - apply ServeHTTP_limited.
Qed.

(** C7. A signature that is not valid hexadecimal does not verify,
    whatever the body and the secret: both [verifySignature] and
    [VerifyWebhookSignature] return [false], and the receiver answers it
    as it answers a signature that does not match, with 401 and the
    message of [ErrInvalidSignature]. *)
Theorem malformed_signature_is_a_mismatch (body : list byte)
    (signature : string) :
  valid_hex signature = false ->
  (forall secret : list byte,
     webhook.verifySignature body signature secret = false)
  /\ (forall secret : string,
        webhook.VerifyWebhookSignature body signature secret = false)
  /\ (forall r req w,
        signature_of req = signature ->
        webhook.skipVerification r = false ->
        http.Method req = http.MethodPost ->
        snd (read_of r req) = None ->
        snd (webhook.ServeHTTP r req w)
        = webhook.Body_Close
            (reply (http.Error (errorString_Error ErrInvalidSignature) 401)
                   w)).
Proof.
  intros V. split; [|split].
  - intros secret. apply verifySignature_malformed, V.
  - intros secret. apply verifySignature_malformed, V.
  - intros r req w Sig Skip M R.
    rewrite ServeHTTP_stages, Skip, R, Sig.
    apply String.eqb_eq in M. unfold http.MethodPost in *. rewrite M.
    rewrite verifySignature_malformed by exact V.
    destruct (String.eqb signature "") eqn:E; [|reflexivity].
    apply String.eqb_eq in E. rewrite E in V. vm_compute in V.
    discriminate V.
Qed.

(** The status once the signature stage is passed. *)
Lemma status_after_verification r w (body : list byte) :
  http.W_Code (webhook.writer w) = None ->
  http.W_Code
    (webhook.writer
       (webhook.Body_Close
          match webhook.ParseWebhookNotification body with
          | inr _ => reply (http.Error "invalid payload" 400) w
          | inl n =>
              match fst (webhook.handler r n (webhook.user w)) with
              | Some _ =>
                  reply (http.Error "handler error" 500) (handled r n w)
              | None =>
                  reply (fun rw =>
                           http.Write (Bytes.of_string webhook.status_ok)
                             (http.WriteHeader 200 rw))
                        (handled r n w)
              end
          end))
  = match webhook.ParseWebhookNotification body with
    | inr _ => Some 400
    | inl n =>
        match fst (webhook.handler r n (webhook.user w)) with
        | Some _ => Some 500
        | None => Some 200
        end
    end.
Proof.
  intros Code.
  destruct (webhook.ParseWebhookNotification body) as [n|e].
  - destruct (fst (webhook.handler r n (webhook.user w))).
    + apply Error_code, Code.
    + apply acknowledge_code, Code.
  - apply Error_code, Code.
Qed.

(** The calls recorded once the signature stage is passed. *)
Lemma invoked_after_verification r w (body : list byte) :
  webhook.invoked
    (webhook.Body_Close
       match webhook.ParseWebhookNotification body with
       | inr _ => reply (http.Error "invalid payload" 400) w
       | inl n =>
           match fst (webhook.handler r n (webhook.user w)) with
           | Some _ =>
               reply (http.Error "handler error" 500) (handled r n w)
           | None =>
               reply (fun rw =>
                        http.Write (Bytes.of_string webhook.status_ok)
                          (http.WriteHeader 200 rw))
                     (handled r n w)
           end
       end)
  = match webhook.ParseWebhookNotification body with
    | inr _ => webhook.invoked w
    | inl n => webhook.invoked w ++ [n]
    end.
Proof.
  destruct (webhook.ParseWebhookNotification body) as [n|e];
    [|reflexivity].
  destruct (fst (webhook.handler r n (webhook.user w))); reflexivity.
Qed.

(** C8. On a POST request whose body was read, for a receiver holding
    the bytes of [secret]: with verification enabled the response is 401
    exactly when [VerifyWebhookSignature] returns [false] on the body
    read, the signature header and [secret]; and once the signature stage
    is passed or skipped, the handler is invoked on [n] exactly when
    [ParseWebhookNotification] gives [n] on the body read, and the
    response is 400 exactly when it gives an error. *)
Theorem standalone_primitives_agree r req w (secret : string) :
  webhook.secret r = Bytes.of_string secret ->
  http.Method req = http.MethodPost ->
  snd (read_of r req) = None ->
  http.W_Code (webhook.writer w) = None ->
  let body := fst (read_of r req) in
  let w' := snd (webhook.ServeHTTP r req w) in
  let verified :=
    webhook.VerifyWebhookSignature body (signature_of req) secret in
  (webhook.skipVerification r = false ->
   verified = false <-> http.W_Code (webhook.writer w') = Some 401)
  /\ (webhook.skipVerification r = true \/ verified = true ->
      (forall n,
         webhook.ParseWebhookNotification body = inl n
         <-> webhook.invoked w' = webhook.invoked w ++ [n])
      /\ ((exists e, webhook.ParseWebhookNotification body = inr e)
          <-> http.W_Code (webhook.writer w') = Some 400)).
Proof.
  intros Sec M R Code body w' verified. subst w' verified.
  unfold webhook.VerifyWebhookSignature. rewrite <- Sec.
  rewrite ServeHTTP_stages, R.
  apply String.eqb_eq in M. unfold http.MethodPost in *. rewrite M.
  cbn [negb]. fold body.
  split.
  - intros ->. cbn [negb andb].
    destruct (String.eqb (signature_of req) "") eqn:E.
    { apply String.eqb_eq in E. rewrite E, verifySignature_empty.
      split; [intros _; apply Error_code, Code | reflexivity]. }
    destruct (webhook.verifySignature body (signature_of req)
                (webhook.secret r)); cbn [negb].
    + rewrite status_after_verification by exact Code.
      split; [discriminate|].
      destruct (webhook.ParseWebhookNotification body) as [n|e];
        [destruct (fst (webhook.handler r n (webhook.user w)))|];
        discriminate.
    + split; [intros _; apply Error_code, Code | reflexivity].
  - intros Pass.
    assert ((negb (webhook.skipVerification r)
             && String.eqb (signature_of req) "") = false
            /\ (negb (webhook.skipVerification r)
                && negb (webhook.verifySignature body (signature_of req)
                           (webhook.secret r))) = false) as [-> ->].
    { destruct Pass as [-> | V]; [split; reflexivity|].
      rewrite V. rewrite andb_false_r. split; [|reflexivity].
      destruct (String.eqb (signature_of req) "") eqn:E;
        [|apply andb_false_r].
      apply String.eqb_eq in E.
      rewrite E, verifySignature_empty in V. discriminate V. }
    rewrite status_after_verification by exact Code.
    rewrite invoked_after_verification.
    destruct (webhook.ParseWebhookNotification body) as [n|e]; split.
    + intros n'. split.
      * intros [= ->]. reflexivity.
      * intros E. apply app_inv_head in E. congruence.
    + split; [intros [e E]; discriminate E|].
      destruct (fst (webhook.handler r n (webhook.user w))); discriminate.
    + intros n. split; [discriminate|].
      intros E. apply (f_equal (@List.length _)) in E.
      rewrite List.length_app in E. cbn in E. lia.
    + split; [reflexivity | intros _; exists e; reflexivity].
Qed.

(** C9. [NewWebhookReceiver] on the empty secret and no option gives a
    receiver with verification enabled and the empty key. A POST request
    whose body was read and whose signature header is the hexadecimal
    HMAC-SHA256 of the body read under the empty key passes the signature
    stage: it is served as by the receiver built with verification
    disabled, and the handler is invoked on what the body decodes to. *)
Theorem empty_secret_accepted (h : webhook.WebhookHandler S) req w :
  let r := webhook.NewWebhookReceiver "" h [] in
  http.Method req = http.MethodPost ->
  snd (read_of r req) = None ->
  signature_of req
  = hex.EncodeToString (hmac.Sum [] (fst (read_of r req))) ->
  webhook.skipVerification r = false
  /\ webhook.secret r = []
  /\ webhook.verifySignature (fst (read_of r req)) (signature_of req)
       (webhook.secret r) = true
  /\ snd (webhook.ServeHTTP r req w)
     = snd (webhook.ServeHTTP
              (webhook.NewWebhookReceiver "" h
                 [webhook.WithoutSignatureVerification]) req w)
  /\ (forall n,
        webhook.ParseWebhookNotification (fst (read_of r req)) = inl n ->
        webhook.invoked (snd (webhook.ServeHTTP r req w))
        = webhook.invoked w ++ [n]).
Proof.
  intros r M R Sig.
  assert (webhook.verifySignature (fst (read_of r req)) (signature_of req)
            (webhook.secret r) = true) as V.
  { rewrite Sig. apply verifySignature_signed. }
  assert (String.eqb (signature_of req) "" = false) as E.
  { apply String.eqb_neq. rewrite Sig. apply EncodeToString_Sum_not_empty. }
  assert (snd (webhook.ServeHTTP r req w)
          = webhook.Body_Close
              match
                webhook.ParseWebhookNotification (fst (read_of r req))
              with
              | inr _ => reply (http.Error "invalid payload" 400) w
              | inl n =>
                  match fst (webhook.handler r n (webhook.user w)) with
                  | Some _ =>
                      reply (http.Error "handler error" 500)
                            (handled r n w)
                  | None =>
                      reply (fun rw =>
                               http.Write
                                 (Bytes.of_string webhook.status_ok)
                                 (http.WriteHeader 200 rw))
                            (handled r n w)
                  end
              end) as Served.
  { rewrite ServeHTTP_stages, R, V, E.
    apply String.eqb_eq in M. unfold http.MethodPost in *. rewrite M.
    rewrite andb_false_r. reflexivity. }
  split; [reflexivity|]. split; [reflexivity|]. split; [exact V|].
  split.
  - rewrite Served, ServeHTTP_stages.
    change (read_of (webhook.NewWebhookReceiver "" h
                       [webhook.WithoutSignatureVerification]) req)
      with (read_of r req).
    rewrite R.
    apply String.eqb_eq in M. unfold http.MethodPost in *. rewrite M.
    reflexivity.
  - intros n P. rewrite Served, invoked_after_verification, P.
    reflexivity.
Qed.

(** Signing [body], then verifying with the same body and secret,
    succeeds. *)
Lemma verify_generated (body : list byte) (secret : string) :
  webhook.VerifyWebhookSignature body (generateSignature body secret)
    secret = true.
Proof. apply verifySignature_signed. Qed.

(** The signature of [body] verifies against another body exactly when
    the two have the same MAC under the secret: that a body changed in
    one byte is turned down is the collision resistance of HMAC-SHA256,
    which these definitions neither prove nor refute. *)
Lemma verify_generated_other_body (body body' : list byte)
    (secret : string) :
  webhook.VerifyWebhookSignature body' (generateSignature body secret)
    secret = true
  <-> hmac.Sum (Bytes.of_string secret) body'
      = hmac.Sum (Bytes.of_string secret) body.
Proof.
  unfold webhook.VerifyWebhookSignature, webhook.verifySignature,
    generateSignature.
  rewrite DecodeString_EncodeToString, Equal_iff.
  split; intros E; symmetry; exact E.
Qed.

(** C10. A POST request whose body is longer than [maxBodySize] is not
    turned down for its size: the read gives the first [maxBodySize]
    bytes and no error, the request is served as the request whose body
    is that prefix, and the status is 401, 400, 500 or 200 as the
    signature check, the decoding and the handler decide on the prefix. *)
Theorem oversized_body_truncated r req w :
  http.Method req = http.MethodPost ->
  webhook.maxBodySize r
  < Z.of_nat (List.length (io.data (http.Body req))) ->
  http.W_Code (webhook.writer w) = None ->
  let prefix :=
    take (Z.to_nat (webhook.maxBodySize r)) (io.data (http.Body req)) in
  read_of r req = (prefix, None)
  /\ webhook.ServeHTTP r req
     = webhook.ServeHTTP r
         (with_body req {| io.data := prefix; io.err := None |})
  /\ http.W_Code (webhook.writer (snd (webhook.ServeHTTP r req w)))
     = (if negb (webhook.skipVerification r)
           && (String.eqb (signature_of req) ""
               || negb (webhook.verifySignature prefix (signature_of req)
                          (webhook.secret r)))
        then Some 401
        else
          match webhook.ParseWebhookNotification prefix with
          | inr _ => Some 400
          | inl n =>
              match fst (webhook.handler r n (webhook.user w)) with
              | Some _ => Some 500
              | None => Some 200
              end
          end).
Proof.
  intros M Long Code prefix.
  assert (io.LimitReader (http.Body req) (webhook.maxBodySize r)
          = {| io.data := prefix; io.err := None |}) as Cut.
  { unfold io.LimitReader.
    destruct (Z.of_nat (List.length (io.data (http.Body req)))
              <? webhook.maxBodySize r) eqn:L; [|reflexivity].
    apply Z.ltb_lt in L. lia. }
  assert (read_of r req = (prefix, None)) as R.
  { unfold read_of. rewrite Cut. reflexivity. }
  split; [exact R|]. split.
  - rewrite <- Cut. apply ServeHTTP_limited.
  - rewrite ServeHTTP_stages, R. cbn [fst snd].
    apply String.eqb_eq in M. unfold http.MethodPost in *. rewrite M.
    cbn [negb].
    destruct (webhook.skipVerification r); cbn [negb andb].
    + apply status_after_verification, Code.
    + destruct (String.eqb (signature_of req) ""); cbn [orb].
      { apply Error_code, Code. }
      destruct (webhook.verifySignature prefix (signature_of req)
                  (webhook.secret r)); cbn [negb].
      * apply status_after_verification, Code.
      * apply Error_code, Code.
Qed.

End Receiver.

(** ** The client *)

Section Client.

Context `{Json} `{Net}.
Implicit Types (c : client.Client) (e : error).

Ltac exec :=
  cbv [mbind mret client.Exec_bind client.Exec_ret client.try client.fail
       client.log_Println].

(** The error [request] returns is [invalid_path], one of the errors
    wrapped on the way to the response, or an [*APIError]. *)
Lemma request_error_shape c (ctx : Context) (method path : string)
    (query : option (gmap string (list string))) (body result : option any)
    e :
  snd (client.request c ctx method path query body result) = inr e ->
  (exists e', e = invalid_path path e')
  \/ (exists e', e = failed_to_encode_request_body e')
  \/ (exists e', e = failed_to_create_request e')
  \/ (exists e', e = request_failed e')
  \/ (exists e', e = failed_to_read_response e')
  \/ (exists e', e = failed_to_decode_response e')
  \/ (exists a, e = APIError_ptr a).
Proof.
  unfold client.request. exec.
  destruct (url.URL_Parse (client.baseURL c) path) as [u|e1]; cbn [snd].
  2:{ intros [= <-]. left. eauto. }
  destruct body as [v|]; exec.
  - destruct (Marshal v) as [jsonBody|e2]; cbn [snd].
    2:{ intros [= <-]. right. left. eauto. }
    destruct (NewRequestWithContext _ _ _ _) as [req|e3]; cbn [snd].
    2:{ intros [= <-]. do 2 right. left. eauto. }
    destruct (client.httpClient c _) as [resp|e4]; cbn [snd].
    2:{ intros [= <-]. do 3 right. left. eauto. }
    destruct (io.ReadAll (http.RespBody resp)) as [respBody [e5|]];
      cbn [snd].
    { intros [= <-]. do 4 right. left. eauto. }
    destruct (400 <=? http.StatusCode resp); cbn [snd].
    { intros [= <-]. do 6 right. eauto. }
    destruct result as [v'|]; [|discriminate].
    destruct (0 <? List.length respBody)%nat; [|discriminate].
    destruct (Unmarshal respBody v') as [v''|e6]; cbn [snd];
      [discriminate|].
    intros [= <-]. do 5 right. left. eauto.
  - destruct (NewRequestWithContext _ _ _ _) as [req|e3]; cbn [snd].
    2:{ intros [= <-]. do 2 right. left. eauto. }
    destruct (client.httpClient c _) as [resp|e4]; cbn [snd].
    2:{ intros [= <-]. do 3 right. left. eauto. }
    destruct (io.ReadAll (http.RespBody resp)) as [respBody [e5|]];
      cbn [snd].
    { intros [= <-]. do 4 right. left. eauto. }
    destruct (400 <=? http.StatusCode resp); cbn [snd].
    { intros [= <-]. do 6 right. eauto. }
    destruct result as [v'|]; [|discriminate].
    destruct (0 <? List.length respBody)%nat; [|discriminate].
    destruct (Unmarshal respBody v') as [v''|e6]; cbn [snd];
      [discriminate|].
    intros [= <-]. do 5 right. left. eauto.
Qed.

(** What [request] returns once the transport has answered and the
    answer was read. *)
Lemma request_on_response c (ctx : Context) (method path : string)
    (query : option (gmap string (list string))) (body result : option any)
    (u : URL) (bodyReader : option (list byte)) (req : http.Request)
    (resp : http.Response) (respBody : list byte) :
  url.URL_Parse (client.baseURL c) path = inl u ->
  match body, bodyReader with
  | Some v, Some jsonBody => Marshal v = inl jsonBody
  | None, None => True
  | _, _ => False
  end ->
  NewRequestWithContext ctx method (URL_String (target u query)) bodyReader
  = inl req ->
  client.httpClient c (with_headers c (not_nil body) req) = inl resp ->
  io.ReadAll (http.RespBody resp) = (respBody, None) ->
  snd (client.request c ctx method path query body result)
  = if 400 <=? http.StatusCode resp then
      inr (APIError_ptr
             (if (0 <? List.length respBody)%nat then
                match Unmarshal_errResp respBody with
                | inl (code, message) =>
                    {| StatusCode := http.StatusCode resp;
                       Code := code; Message := message |}
                | inr _ =>
                    {| StatusCode := http.StatusCode resp;
                       Code := ""; Message := "" |}
                end
              else {| StatusCode := http.StatusCode resp;
                      Code := ""; Message := "" |}))
    else
      match result with
      | Some v =>
          if (0 <? List.length respBody)%nat then
            match Unmarshal respBody v with
            | inl v' => inl (Some v')
            | inr e => inr (failed_to_decode_response e)
            end
          else inl result
      | None => inl None
      end.
Proof.
  intros U B N D R. unfold client.request. exec. rewrite U.
  unfold target, with_headers in *.
  destruct body as [v|], bodyReader as [jb|]; try contradiction; exec.
  - rewrite B, N. cbn [not_nil] in *. rewrite D, R.
    destruct (400 <=? http.StatusCode resp); cbn [snd].
    { destruct (0 <? List.length respBody)%nat; [|reflexivity].
      destruct (Unmarshal_errResp respBody) as [[code message]|e];
        reflexivity. }
    destruct result as [v'|]; [|reflexivity].
    destruct (0 <? List.length respBody)%nat; [|reflexivity].
    destruct (Unmarshal respBody v'); reflexivity.
  - rewrite N. cbn [not_nil] in *. rewrite D, R.
    destruct (400 <=? http.StatusCode resp); cbn [snd].
    { destruct (0 <? List.length respBody)%nat; [|reflexivity].
      destruct (Unmarshal_errResp respBody) as [[code message]|e];
        reflexivity. }
    destruct result as [v'|]; [|reflexivity].
    destruct (0 <? List.length respBody)%nat; [|reflexivity].
    destruct (Unmarshal respBody v'); reflexivity.
Qed.

(** C5. When the transport answers a call with status 404, 401, 403 or
    429 and the answer was read: if the body is an error envelope, that
    is a non-empty body that decodes into a code and a message, [request]
    returns the [*APIError] of the status, that code and that message;
    if the body does not decode, it returns the [*APIError] of the status
    with empty code and message; and in both cases the error satisfies
    the predicate of its status, [IsNotFound], [IsUnauthorized],
    [IsForbidden] or [IsRateLimited]. *)
Theorem status_errors_classified c (ctx : Context) (method path : string)
    (query : option (gmap string (list string))) (body result : option any)
    (u : URL) (bodyReader : option (list byte)) (req : http.Request)
    (resp : http.Response) (respBody : list byte) :
  url.URL_Parse (client.baseURL c) path = inl u ->
  match body, bodyReader with
  | Some v, Some jsonBody => Marshal v = inl jsonBody
  | None, None => True
  | _, _ => False
  end ->
  NewRequestWithContext ctx method (URL_String (target u query)) bodyReader
  = inl req ->
  client.httpClient c (with_headers c (not_nil body) req) = inl resp ->
  io.ReadAll (http.RespBody resp) = (respBody, None) ->
  http.StatusCode resp ∈ [404; 401; 403; 429] ->
  exists a,
    snd (client.request c ctx method path query body result)
    = inr (APIError_ptr a)
    /\ StatusCode a = http.StatusCode resp
    /\ (forall code message,
          respBody <> [] ->
          Unmarshal_errResp respBody = inl (code, message) ->
          Code a = code /\ Message a = message)
    /\ (forall e,
          Unmarshal_errResp respBody = inr e ->
          Code a = EmptyString /\ Message a = EmptyString)
    /\ (http.StatusCode resp = 404 ->
        IsNotFound (Some (APIError_ptr a)) = true)
    /\ (http.StatusCode resp = 401 ->
        IsUnauthorized (Some (APIError_ptr a)) = true)
    /\ (http.StatusCode resp = 403 ->
        IsForbidden (Some (APIError_ptr a)) = true)
    /\ (http.StatusCode resp = 429 ->
        IsRateLimited (Some (APIError_ptr a)) = true).
Proof.
  intros U B N D R St.
  rewrite (request_on_response c ctx method path query body result
             u bodyReader req resp respBody U B N D R).
  assert ((400 <=? http.StatusCode resp) = true) as ->.
  { apply Z.leb_le.
    repeat (apply elem_of_cons in St as [-> | St]; [lia|]).
    apply elem_of_nil in St. contradiction. }
  eexists. split; [reflexivity|].
  assert (forall a : APIError,
            StatusCode a = http.StatusCode resp ->
            (http.StatusCode resp = 404 ->
             IsNotFound (Some (APIError_ptr a)) = true)
            /\ (http.StatusCode resp = 401 ->
                IsUnauthorized (Some (APIError_ptr a)) = true)
            /\ (http.StatusCode resp = 403 ->
                IsForbidden (Some (APIError_ptr a)) = true)
            /\ (http.StatusCode resp = 429 ->
                IsRateLimited (Some (APIError_ptr a)) = true)) as Cls.
  { intros a E.
    unfold IsNotFound, IsUnauthorized, IsForbidden, IsRateLimited,
      isStatusCode.
    cbn [As_APIError]. rewrite E.
    repeat split; intros ->; reflexivity. }
  destruct (0 <? List.length respBody)%nat eqn:L.
  - destruct (Unmarshal_errResp respBody) as [[code message]|e0] eqn:J;
      cbn [StatusCode Code Message].
    + split; [reflexivity|]. split; [intros ? ? _ [= <- <-]; auto|].
      split; [discriminate|]. apply Cls. reflexivity.
    + split; [reflexivity|]. split; [discriminate|].
      split; [auto|]. apply Cls. reflexivity.
  - cbn [StatusCode Code Message].
    split; [reflexivity|]. split.
    { intros ? ? NE _. destruct respBody; [contradiction|discriminate L]. }
    split; [auto|]. apply Cls. reflexivity.
Qed.

(** C4, as the code has it. The errors of a missing credential, of an
    invalid base address and of an invalid transport are returned by
    [NewClient] and its options; no error [request] returns is one of
    them; and [request] returns [invalid_path], at call time, whenever
    the path cannot be parsed. *)
Theorem construction_errors_not_at_call_time c (ctx : Context)
    (method path : string) (query : option (gmap string (list string)))
    (body result : option any) :
  (forall opts, client.NewClient "" opts = inr token_is_required)
  /\ (forall address e,
        url.Parse address = inr e ->
        client.WithBaseURL address c = inr (invalid_base_URL e))
  /\ client.WithHTTPClient None c = inr HTTP_client_cannot_be_nil
  /\ construction_error token_is_required = true
  /\ construction_error HTTP_client_cannot_be_nil = true
  /\ (forall e, construction_error (invalid_base_URL e) = true)
  /\ (forall e,
        snd (client.request c ctx method path query body result) = inr e ->
        construction_error e = false)
  /\ (forall e,
        url.Parse path = inr e ->
        client.request c ctx method path query body result
        = ([], inr (invalid_path path e))).
Proof.
  split; [reflexivity|]. split.
  { intros address e E. unfold client.WithBaseURL. rewrite E.
    reflexivity. }
  do 4 (split; [reflexivity|]). split.
  - intros e E. apply request_error_shape in E.
    destruct E as [[e' ->]|[[e' ->]|[[e' ->]|[[e' ->]|[[e' ->]|[[e' ->]|
                   [a ->]]]]]]]; reflexivity.
  - intros e E. unfold client.request, url.URL_Parse. rewrite E.
    reflexivity.
Qed.

End Client.

(** ** Examples: test vectors and the scenarios of the tests *)

Section Examples.

(** The first and the last round constant, the first initial value. *)
Example sha256_constants :
  nth 0 sha256.K 0 = 0x428a2f98 /\ nth 63 sha256.K 0 = 0xc67178f2
  /\ sha256.h0 sha256.init = 0x6a09e667 /\ List.length sha256.K = 64%nat.
Proof. vm_compute. repeat split; reflexivity. Qed.

Example sha256_abc :
  hex.EncodeToString (sha256.Sum256 (Bytes.of_string "abc"))
  = "ba7816bf8f01cfea414140de5dae2223b00361a396177a9cb410ff61f20015ad"%string.
Proof. vm_compute. reflexivity. Qed.

Example sha256_empty :
  hex.EncodeToString (sha256.Sum256 [])
  = "e3b0c44298fc1c149afbf4c8996fb92427ae41e4649b934ca495991b7852b855"%string.
Proof. vm_compute. reflexivity. Qed.

Example hmac_rfc4231_2 :
  hex.EncodeToString
    (hmac.Sum (Bytes.of_string "Jefe")
              (Bytes.of_string "what do ya want for nothing?"))
  = "5bdcc146bf60754e6a042426089575c75a003f089d2739839dec58b964ec3843"%string.
Proof. vm_compute. reflexivity. Qed.

(** The signature of the tests' body under the tests' secret. *)
Example generateSignature_test :
  generateSignature testing.body "test-secret"
  = "6bb97c4374581ac3d765f0c1a46c2b3f6cbf81d9bc4245d3d6f7db460eccb5e1"%string.
Proof. vm_compute. reflexivity. Qed.

(** A valid request: 200, the acknowledgement, one call of the handler. *)
Example valid_request :
  testing.served testing.receiver
    (testing.NewRequest "POST" testing.body
       (Some (generateSignature testing.body "test-secret")))
  = (Some 200, Bytes.of_string webhook.status_ok, 1%nat,
     [testing.notification]).
Proof. vm_compute. reflexivity. Qed.

(** An invalid signature: 401, the handler is not called. *)
Example invalid_signature :
  testing.served testing.receiver
    (testing.NewRequest "POST" testing.body (Some "invalid-signature"))
  = (Some 401,
     Bytes.of_string "corestream: invalid webhook signature" ++ [x0a],
     0%nat, []).
Proof. vm_compute. reflexivity. Qed.

(** No signature: 401. *)
Example missing_signature :
  testing.served testing.receiver (testing.NewRequest "POST" testing.body None)
  = (Some 401,
     Bytes.of_string "corestream: missing webhook signature" ++ [x0a],
     0%nat, []).
Proof. vm_compute. reflexivity. Qed.

(** A GET request: 405. *)
Example invalid_method :
  testing.served testing.receiver (testing.NewRequest "GET" [] None)
  = (Some 405, Bytes.of_string "method not allowed" ++ [x0a], 0%nat, []).
Proof. vm_compute. reflexivity. Qed.

(** A signed body that does not decode: 400. *)
Example invalid_payload :
  testing.served testing.receiver
    (testing.NewRequest "POST" testing.invalid_body
       (Some (generateSignature testing.invalid_body "test-secret")))
  = (Some 400, Bytes.of_string "invalid payload" ++ [x0a], 0%nat, []).
Proof. vm_compute. reflexivity. Qed.

(** A handler that fails: 500, after its one call. *)
Example handler_error :
  testing.served (webhook.NewWebhookReceiver "test-secret" testing.reject [])
    (testing.NewRequest "POST" testing.body
       (Some (generateSignature testing.body "test-secret")))
  = (Some 500, Bytes.of_string "handler error" ++ [x0a], 1%nat,
     [testing.notification]).
Proof. vm_compute. reflexivity. Qed.

(** Verification disabled: an invalid signature is ignored. *)
Example verification_disabled :
  testing.served (webhook.NewWebhookReceiver "" testing.accept
            [webhook.WithoutSignatureVerification])
    (testing.NewRequest "POST" testing.body (Some "invalid-signature"))
  = (Some 200, Bytes.of_string webhook.status_ok, 1%nat,
     [testing.notification]).
Proof. vm_compute. reflexivity. Qed.

(** A body that cannot be read: 400, the handler is not called. *)
Example unreadable_body :
  testing.served testing.receiver
    {| http.Method := "POST"; http.URL := "/webhook"; http.Header := ∅;
       http.Body := testing.failing testing.body |}
  = (Some 400, Bytes.of_string "failed to read body" ++ [x0a], 0%nat, []).
Proof. vm_compute. reflexivity. Qed.

(** A call of [request] carries the bearer token, and logs its address. *)
Example authorization_header :
  client.request (H := testing.json) (H0 := testing.net)
    {| client.baseURL := defaultURL; client.token := "test-token";
       client.httpClient := testing.authorized |}
    tt "GET" "/v2/streamers/test-id" None None (Some [])
  = ([["request"; "GET"; "https://api.core.stream/v2/streamers/test-id"]],
     inl (Some (Bytes.of_string "{}"))).
Proof. vm_compute. reflexivity. Qed.

(** [NewClient] turns down the empty token and the nil transport. *)
Example NewClient_errors :
  client.NewClient (H := testing.net) "" [] = inr token_is_required
  /\ client.NewClient (H := testing.net) "token" [client.WithHTTPClient None]
     = inr HTTP_client_cannot_be_nil.
Proof. split; reflexivity. Qed.

(** The signature of another secret does not verify. *)
Example wrong_secret :
  webhook.VerifyWebhookSignature testing.body
    (generateSignature testing.body "test-secret") "wrong-secret" = false.
Proof. vm_compute. reflexivity. Qed.

End Examples.

(** ** The theorems at the inputs of the tests *)

Section Witnesses.

#[local] Existing Instance testing.json.
#[local] Existing Instance testing.net.

(** The valid request of the tests, under C2: 200 and the
    acknowledgement. *)
Lemma ServeHTTP_status_valid_request :
  let req := testing.NewRequest "POST" testing.body
               (Some (generateSignature testing.body "test-secret")) in
  let rw := webhook.writer
              (snd (webhook.ServeHTTP testing.receiver req testing.fresh)) in
  http.W_Code rw = Some 200
  /\ http.W_Body rw = Bytes.of_string webhook.status_ok.
Proof.
  intros req rw.
  pose proof (ServeHTTP_status_of_first_failure (H := testing.json)
                testing.receiver req testing.fresh
                eq_refl eq_refl eq_refl) as T.
  cbv zeta in T. destruct T as [_ T].
  destruct (T eq_refl) as [_ T1]. destruct (T1 eq_refl) as [_ T2].
  assert (signature_of req <> EmptyString) as Sig
    by (vm_compute; discriminate).
  destruct (T2 Sig) as (_ & _ & T3).
  assert (webhook.verifySignature
            (fst (read_of testing.receiver req)) (signature_of req)
            (webhook.secret testing.receiver) = true) as V
    by (vm_compute; reflexivity).
  destruct (T3 V) as [_ T4].
  assert (webhook.ParseWebhookNotification (H := testing.json)
            (fst (read_of testing.receiver req))
          = inl testing.notification) as P
    by (vm_compute; reflexivity).
  destruct (T4 testing.notification P) as [_ T5].
  apply T5. reflexivity.
Defined.

(** A client built by [NewClient] returns [invalid_path] for an alert
    identifier that holds a line feed, under the amended C4. *)
Lemma invalid_path_at_call_time :
  client.NewClient (H := testing.net) "test-token"
    [client.WithHTTPClient (Some (testing.respond 404 testing.envelope))]
  = inl testing.client_404
  /\ client.request (H := testing.json) testing.client_404 tt "GET"
       testing.line_feed_path None None None
     = ([], inr (invalid_path testing.line_feed_path
                   (url_Error "parse" testing.line_feed_path
                      (New {| s := "net/url: invalid control character in URL"
                           |})))).
Proof.
  split; [reflexivity|].
  apply (construction_errors_not_at_call_time (H := testing.json)
           testing.client_404 tt "GET" testing.line_feed_path
           None None None).
  reflexivity.
Defined.

(** C4 as the specification states it fails: a client built by [NewClient]
    returns, from [request], the error of a path that cannot be resolved,
    which the specification counts among the configuration errors. *)
Lemma request_returns_configuration_error :
  client.NewClient (H := testing.net) "test-token"
    [client.WithHTTPClient (Some (testing.respond 404 testing.envelope))]
  = inl testing.client_404
  /\ exists e,
       snd (client.request (H := testing.json) testing.client_404 tt "GET"
              testing.line_feed_path None None None) = inr e
       /\ configuration_error e = true.
Proof.
  split; [reflexivity|]. eexists. split; reflexivity.
Qed.

(** The 404 of the tests, under C5: [IsNotFound], with the code and the
    message of the envelope. *)
Lemma status_errors_not_found :
  exists a,
    snd (client.request (H := testing.json) testing.client_404 tt "GET"
           "/v2/streamers/test-id" None None None) = inr (APIError_ptr a)
    /\ IsNotFound (Some (APIError_ptr a)) = true
    /\ Code a = "not_found"%string
    /\ Message a = "Resource not found"%string.
Proof.
  destruct (status_errors_classified (H := testing.json) (H0 := testing.net)
              testing.client_404 tt "GET" "/v2/streamers/test-id"
              None None None
              "https://api.core.stream/v2/streamers/test-id"%string None
              {| http.Method := "GET";
                 http.URL := "https://api.core.stream/v2/streamers/test-id";
                 http.Header := ∅;
                 http.Body := {| io.data := []; io.err := None |} |}
              {| http.StatusCode := 404;
                 http.RespBody := {| io.data := testing.envelope;
                                     io.err := None |} |}
              testing.envelope)
    as (a & R & _ & E & _ & NF & _).
  - reflexivity.
  - exact I.
  - reflexivity.
  - reflexivity.
  - reflexivity.
  - left.
  - exists a. split; [exact R|]. split; [apply NF; reflexivity|].
    apply E; [discriminate | reflexivity].
Defined.

(** The malformed signature of the tests, under C7. *)
Lemma malformed_signature_not_hex :
  webhook.VerifyWebhookSignature testing.body "not-hex" "test-secret" = false.
Proof.
  apply (malformed_signature_is_a_mismatch (H := testing.json) (S := nat)
           testing.body "not-hex" eq_refl).
Defined.

(** The valid request of the tests, under C8: the receiver does not answer
    401, as [VerifyWebhookSignature] returns [true], and it invokes the
    handler on what [ParseWebhookNotification] gives. *)
Lemma standalone_primitives_valid_request :
  let req := testing.NewRequest "POST" testing.body
               (Some (generateSignature testing.body "test-secret")) in
  webhook.invoked
    (snd (webhook.ServeHTTP (H := testing.json) testing.receiver req
            testing.fresh))
  = [testing.notification].
Proof.
  intros req.
  pose proof (standalone_primitives_agree (H := testing.json)
                testing.receiver req testing.fresh "test-secret"
                eq_refl eq_refl eq_refl eq_refl) as T.
  cbv zeta in T. destruct T as [_ T].
  assert (webhook.VerifyWebhookSignature
            (fst (read_of testing.receiver req)) (signature_of req)
            "test-secret" = true) as V
    by (vm_compute; reflexivity).
  destruct (T (or_intror V)) as [T1 _].
  apply (T1 testing.notification). vm_compute. reflexivity.
Defined.

(** A request signed under the empty key, under C9: the receiver built on
    the empty secret invokes the handler. *)
Lemma empty_secret_signed_request :
  let req := testing.NewRequest "POST" testing.body
               (Some (generateSignature testing.body "")) in
  webhook.invoked
    (snd (webhook.ServeHTTP (H := testing.json)
            (webhook.NewWebhookReceiver "" testing.accept []) req
            testing.fresh))
  = [testing.notification].
Proof.
  intros req.
  pose proof (empty_secret_accepted (H := testing.json) testing.accept req
                testing.fresh) as T.
  cbv zeta in T.
  destruct (T eq_refl eq_refl eq_refl) as (_ & _ & _ & _ & T1).
  apply (T1 testing.notification). vm_compute. reflexivity.
Defined.

(** A body of 1,048,577 bytes, under C10: the receiver of the tests reads
    the first [maxBodySize] of them, without error. *)
Lemma oversized_body_one_byte_over :
  let req := testing.NewRequest "POST"
               (repeat x00 (Z.to_nat 1048577)) None in
  read_of testing.receiver req
  = (take (Z.to_nat (webhook.maxBodySize testing.receiver))
          (io.data (http.Body req)), None).
Proof.
  intros req.
  assert (webhook.maxBodySize testing.receiver
          < Z.of_nat (List.length (io.data (http.Body req)))) as Long.
  { change (io.data (http.Body req)) with (repeat x00 (Z.to_nat 1048577)).
    rewrite List.repeat_length, Z2Nat.id by lia.
    change (webhook.maxBodySize testing.receiver) with 1048576. lia. }
  exact (proj1 (oversized_body_truncated (H := testing.json)
                  testing.receiver req testing.fresh eq_refl Long eq_refl)).
Defined.

End Witnesses.

(** * Further properties *)

(** ** Signatures *)

Section Signatures.

Lemma reverseHexTable_upper (c : ascii) :
  hex.reverseHexTable (byte_of_ascii (props.upper c))
  = hex.reverseHexTable (byte_of_ascii c).
Proof. destruct c as [[] [] [] [] [] [] [] []]; reflexivity. Qed.

(** Decoding does not tell the case of the digits: the bytes are the
    same, and so is whether there is an error. *)
Lemma DecodeString_ToUpper (s : string) :
  fst (hex.DecodeString (props.ToUpper s)) = fst (hex.DecodeString s)
  /\ (snd (hex.DecodeString (props.ToUpper s)) = None
      <-> snd (hex.DecodeString s) = None).
Proof.
  induction s as [|p|p q rest [IH1 IH2]] using string_pair_ind.
  - split; reflexivity.
  - cbn [props.ToUpper hex.DecodeString]. rewrite reverseHexTable_upper.
    destruct (15 <? _); cbn; split; try reflexivity; split; discriminate.
  - cbn [props.ToUpper hex.DecodeString]. rewrite !reverseHexTable_upper.
    destruct (15 <? hex.reverseHexTable (byte_of_ascii p)).
    { cbn. split; [reflexivity | split; discriminate]. }
    destruct (15 <? hex.reverseHexTable (byte_of_ascii q)).
    { cbn. split; [reflexivity | split; discriminate]. }
    destruct (hex.DecodeString (props.ToUpper rest)) as [out' err'].
    destruct (hex.DecodeString rest) as [out err].
    cbn [fst snd] in *. subst out'. split; [reflexivity | exact IH2].
Qed.

(** A string that decodes has two characters for each byte. *)
Lemma DecodeString_length (s : string) (out : list byte) :
  hex.DecodeString s = (out, None) ->
  String.length s = (2 * List.length out)%nat.
Proof.
  revert out. induction s as [|p|p q rest IH] using string_pair_ind;
    intros out.
  - intros [= <-]. reflexivity.
  - cbn. destruct (15 <? _); discriminate.
  - cbn [hex.DecodeString].
    destruct (15 <? hex.reverseHexTable (byte_of_ascii p)); [discriminate|].
    destruct (15 <? hex.reverseHexTable (byte_of_ascii q)); [discriminate|].
    destruct (hex.DecodeString rest) as [out' err'].
    intros [= <- ->]. cbn [String.length List.length].
    rewrite (IH out' eq_refl). lia.
Qed.

(** X1. A signature made by [generateSignature] verifies against the body
    and the secret it was made from. *)
Theorem generated_signature_verifies (body : list byte) (secret : string) :
  webhook.VerifyWebhookSignature body (generateSignature body secret) secret
  = true.
Proof.
  unfold webhook.VerifyWebhookSignature, webhook.verifySignature,
    generateSignature.
  rewrite DecodeString_EncodeToString. apply Equal_iff. reflexivity.
Qed.

(** X2. The signature of [body] verifies against [body'] exactly when the
    two bodies have the same HMAC-SHA256 under the secret. *)
Theorem generated_signature_verifies_iff_same_mac (body body' : list byte)
    (secret : string) :
  webhook.VerifyWebhookSignature body' (generateSignature body secret) secret
  = true
  <-> hmac.Sum (Bytes.of_string secret) body'
      = hmac.Sum (Bytes.of_string secret) body.
Proof.
  unfold webhook.VerifyWebhookSignature, webhook.verifySignature,
    generateSignature.
  rewrite DecodeString_EncodeToString, Equal_iff.
  split; intros E; symmetry; exact E.
Qed.

(** X3. A signature that verifies is valid hexadecimal of exactly 64
    characters, and decodes to the HMAC-SHA256 of the body under the
    secret. *)
Theorem verified_signature_shape (body : list byte) (signature : string)
    (secret : list byte) :
  webhook.verifySignature body signature secret = true ->
  String.length signature = 64%nat
  /\ valid_hex signature = true
  /\ fst (hex.DecodeString signature) = hmac.Sum secret body.
Proof.
  unfold webhook.verifySignature.
  destruct (hex.DecodeString signature) as [out [e|]] eqn:D;
    [discriminate|].
  intros E. apply Equal_iff in E. subst out.
  split; [|split].
  - rewrite (DecodeString_length signature _ D), Sum_length. reflexivity.
  - apply DecodeString_error_iff. rewrite D. reflexivity.
  - reflexivity.
Qed.

(** X4. Verification does not tell the case of the hexadecimal digits: a
    signature and its upper-case form verify alike. *)
Theorem verification_ignores_case (body : list byte) (signature : string)
    (secret : list byte) :
  webhook.verifySignature body (props.ToUpper signature) secret
  = webhook.verifySignature body signature secret.
Proof.
  unfold webhook.verifySignature.
  destruct (DecodeString_ToUpper signature) as [F N].
  destruct (hex.DecodeString (props.ToUpper signature)) as [out' err'].
  destruct (hex.DecodeString signature) as [out err].
  cbn [fst snd] in *. subst out'.
  destruct err' as [e'|], err as [e|]; try reflexivity.
  - destruct N as [_ N]. discriminate (N eq_refl).
  - destruct N as [N _]. discriminate (N eq_refl).
Qed.

End Signatures.

(** ** The receiver, further *)

Section ReceiverMore.

Context `{Json} {S : Type}.
Implicit Types (r : webhook.WebhookReceiver S) (req : http.Request)
               (w : webhook.World S).

Lemma Error_header (msg : string) (code : Z) (rw : http.ResponseWriter) :
  http.W_Header (http.Error msg code rw)
  = <["X-Content-Type-Options"%string := ["nosniff"%string]]>
      (<["Content-Type"%string := ["text/plain; charset=utf-8"%string]]>
         (delete "Content-Length"%string (http.W_Header rw))).
Proof.
  unfold http.Error, http.Write, http.WriteHeader, http.Header_Set. cbn.
  destruct (http.W_Code rw); reflexivity.
Qed.

Lemma acknowledge_header (b : list byte) (rw : http.ResponseWriter) :
  http.W_Header (http.Write b (http.WriteHeader 200 rw)) = http.W_Header rw.
Proof.
  unfold http.Write, http.WriteHeader. cbn.
  destruct (http.W_Code rw) eqn:E; cbn; rewrite ?E; reflexivity.
Qed.

(** X5. With verification disabled the headers of the request play no
    part: a request is served alike whatever its headers, the signature
    header included. *)
Theorem disabled_verification_ignores_headers r req
    (h : gmap string (list string)) :
  webhook.skipVerification r = true ->
  webhook.ServeHTTP r (props.with_header req h) = webhook.ServeHTTP r req.
Proof.
  intros Skip. unfold webhook.ServeHTTP, props.with_header.
  cbn [http.Method http.Body http.Header]. rewrite Skip. reflexivity.
Qed.

(** X6. Every request is answered, with 405, 400, 401, 200 or 500. The
    answer is 200 or 500 exactly when the handler ran, once, on the
    decoded notification, and then it is 500 exactly when the handler
    returned an error; with 405, 400 and 401 the handler did not run and
    its state is as before. *)
Theorem status_tells_whether_handler_ran r req w :
  http.W_Code (webhook.writer w) = None ->
  let w' := snd (webhook.ServeHTTP r req w) in
  let code := http.W_Code (webhook.writer w') in
  ((code = Some 405 \/ code = Some 400 \/ code = Some 401)
   /\ webhook.invoked w' = webhook.invoked w
   /\ webhook.user w' = webhook.user w)
  \/ (exists n,
        webhook.ParseWebhookNotification (fst (read_of r req)) = inl n
        /\ webhook.invoked w' = webhook.invoked w ++ [n]
        /\ webhook.user w' = snd (webhook.handler r n (webhook.user w))
        /\ (fst (webhook.handler r n (webhook.user w)) = None
            /\ code = Some 200
            \/ fst (webhook.handler r n (webhook.user w)) <> None
               /\ code = Some 500)).
Proof.
  intros Code w' code. subst w' code. rewrite ServeHTTP_stages.
  destruct (negb (String.eqb (http.Method req) http.MethodPost)).
  { left. split; [left; apply Error_code, Code | split; reflexivity]. }
  destruct (snd (read_of r req)).
  { left. split; [right; left; apply Error_code, Code | split; reflexivity]. }
  destruct (negb (webhook.skipVerification r)
            && String.eqb (signature_of req) "").
  { left. split; [do 2 right; apply Error_code, Code | split; reflexivity]. }
  destruct (negb (webhook.skipVerification r)
            && negb (webhook.verifySignature (fst (read_of r req))
                       (signature_of req) (webhook.secret r))).
  { left. split; [do 2 right; apply Error_code, Code | split; reflexivity]. }
  destruct (webhook.ParseWebhookNotification (fst (read_of r req)))
    as [n|e].
  2:{ left. split; [right; left; apply Error_code, Code|split; reflexivity]. }
  right. exists n. split; [reflexivity|].
  destruct (fst (webhook.handler r n (webhook.user w))) as [e|] eqn:F.
  - split; [reflexivity|]. split; [reflexivity|]. right.
    split; [discriminate | apply Error_code, Code].
  - split; [reflexivity|]. split; [reflexivity|]. left.
    split; [reflexivity | apply acknowledge_code, Code].
Qed.

(** X7. [ServeHTTP] closes the body of the request exactly when the method
    is POST and the body was read without error: the body of a request
    turned down for its method, or that could not be read, is left
    open. *)
Theorem body_closed_exactly_after_reading r req w :
  webhook.closed (snd (webhook.ServeHTTP r req w))
  = if String.eqb (http.Method req) http.MethodPost
       && negb (not_nil (snd (read_of r req)))
    then true
    else webhook.closed w.
Proof.
  rewrite ServeHTTP_stages.
  destruct (String.eqb (http.Method req) http.MethodPost); [|reflexivity].
  destruct (snd (read_of r req)); reflexivity.
Qed.

(** X8. The acknowledgement is sent with the headers as they were: the
    receiver sets no content type on its JSON body. Every other answer has
    the headers of [http.Error]: plain text, no sniffing, no content
    length. *)
Theorem response_headers r req w :
  http.W_Code (webhook.writer w) = None ->
  let rw := webhook.writer (snd (webhook.ServeHTTP r req w)) in
  (http.W_Code rw = Some 200
   /\ http.W_Header rw = http.W_Header (webhook.writer w))
  \/ (http.W_Code rw <> Some 200
      /\ http.W_Header rw !! "Content-Type"%string
         = Some ["text/plain; charset=utf-8"%string]
      /\ http.W_Header rw !! "X-Content-Type-Options"%string
         = Some ["nosniff"%string]
      /\ http.W_Header rw !! "Content-Length"%string = None).
Proof.
  intros Code rw. subst rw. rewrite ServeHTTP_stages.
  assert (forall (msg : string) (code : Z) (w0 : webhook.World S),
            http.W_Code (webhook.writer w0) = None ->
            code <> 200 ->
            let rw := webhook.writer (reply (http.Error msg code) w0) in
            http.W_Code rw <> Some 200
            /\ http.W_Header rw !! "Content-Type"%string
               = Some ["text/plain; charset=utf-8"%string]
            /\ http.W_Header rw !! "X-Content-Type-Options"%string
               = Some ["nosniff"%string]
            /\ http.W_Header rw !! "Content-Length"%string = None) as Err.
  { intros msg code w0 C N. cbn [reply webhook.writer].
    rewrite Error_code by exact C. rewrite Error_header.
    split; [intros [= E]; contradiction|].
    split; [|split].
    - rewrite lookup_insert_ne by discriminate. apply lookup_insert_eq.
    - apply lookup_insert_eq.
    - rewrite !lookup_insert_ne by discriminate. apply lookup_delete_eq. }
  destruct (negb (String.eqb (http.Method req) http.MethodPost)).
  { right. apply Err; [exact Code | discriminate]. }
  destruct (snd (read_of r req)).
  { right. apply Err; [exact Code | discriminate]. }
  destruct (negb (webhook.skipVerification r)
            && String.eqb (signature_of req) "").
  { right. apply (Err _ 401 w); [exact Code | discriminate]. }
  destruct (negb (webhook.skipVerification r)
            && negb (webhook.verifySignature (fst (read_of r req))
                       (signature_of req) (webhook.secret r))).
  { right. apply (Err _ 401 w); [exact Code | discriminate]. }
  destruct (webhook.ParseWebhookNotification (fst (read_of r req)))
    as [n|e].
  2:{ right. apply (Err _ 400 w); [exact Code | discriminate]. }
  destruct (fst (webhook.handler r n (webhook.user w))).
  - right. apply (Err _ 500 (handled r n w)); [exact Code | discriminate].
  - left. cbn [reply handled webhook.writer webhook.Body_Close].
    split; [apply acknowledge_code, Code | apply acknowledge_header].
Qed.

(** X9. Whatever the number of [WithoutSignatureVerification] options, the
    receiver built holds the bytes of the secret, the handler and the limit
    of 1,048,576 bytes; verification is disabled exactly when at least one
    option is given. *)
Theorem NewWebhookReceiver_options (secret : string)
    (h : webhook.WebhookHandler S) (n : nat) :
  let r := webhook.NewWebhookReceiver secret h
             (repeat webhook.WithoutSignatureVerification n) in
  webhook.secret r = Bytes.of_string secret
  /\ webhook.handler r = h
  /\ webhook.maxBodySize r = 1048576
  /\ webhook.skipVerification r = negb (Nat.eqb n 0).
Proof.
  unfold webhook.NewWebhookReceiver.
  assert (forall (m : nat) (r0 : webhook.WebhookReceiver S),
            let r := fold_left (fun r opt => opt r)
                       (repeat webhook.WithoutSignatureVerification m) r0 in
            webhook.secret r = webhook.secret r0
            /\ webhook.handler r = webhook.handler r0
            /\ webhook.maxBodySize r = webhook.maxBodySize r0
            /\ webhook.skipVerification r
               = if Nat.eqb m 0 then webhook.skipVerification r0 else true)
    as Fold.
  { induction m as [|m IH]; intros r0.
    - cbn. auto.
    - cbn [repeat fold_left Nat.eqb].
      destruct (IH (webhook.WithoutSignatureVerification r0))
        as (E1 & E2 & E3 & E4).
      cbv zeta. rewrite E1, E2, E3, E4.
      repeat split. destruct (Nat.eqb m 0); reflexivity. }
  cbv zeta.
  destruct (Fold n {| webhook.secret := Bytes.of_string secret;
                      webhook.handler := h;
                      webhook.maxBodySize := webhook.MaxWebhookBodySize;
                      webhook.skipVerification := false |})
    as (E1 & E2 & E3 & E4).
  rewrite E1, E2, E3, E4.
  destruct (Nat.eqb n 0); repeat split.
Qed.

End ReceiverMore.

(** ** Errors, further *)

Section ErrorsMore.

(** X10. No error falls under two of the four predicates, and [nil] and the
    errors that wrap no [*APIError] fall under none. *)
Theorem status_predicates_exclusive (err : option error) :
  IsNotFound err && IsUnauthorized err = false
  /\ IsNotFound err && IsForbidden err = false
  /\ IsNotFound err && IsRateLimited err = false
  /\ IsUnauthorized err && IsForbidden err = false
  /\ IsUnauthorized err && IsRateLimited err = false
  /\ IsForbidden err && IsRateLimited err = false
  /\ ((forall e, err = Some e -> As_APIError e = None) ->
      IsNotFound err = false /\ IsUnauthorized err = false
      /\ IsForbidden err = false /\ IsRateLimited err = false).
Proof.
  unfold IsNotFound, IsUnauthorized, IsForbidden, IsRateLimited,
    isStatusCode.
  destruct err as [e|]; [|repeat split].
  destruct (As_APIError e) as [a|] eqn:A.
  - assert (forall p q : Z,
              p <> q ->
              (StatusCode a =? p) && (StatusCode a =? q) = false) as X.
    { intros p q N.
      destruct (Z.eqb_spec (StatusCode a) p), (Z.eqb_spec (StatusCode a) q);
        try reflexivity.
      congruence. }
    do 6 (split; [apply X; discriminate|]).
    intros N. specialize (N e eq_refl). congruence.
  - repeat split.
Qed.

Lemma append_inj_l (p s t : string) :
  (p ++ s)%string = (p ++ t)%string -> s = t.
Proof.
  induction p as [|c p IH]; cbn; [auto|].
  intros [= E]. apply IH, E.
Qed.

Lemma substring_append (p s : string) :
  substring 0 (String.length p) (p ++ s) = p.
Proof.
  induction p as [|c p IH].
  - destruct s; reflexivity.
  - change (String c (substring 0 (String.length p) (p ++ s)) = String c p).
    f_equal. exact IH.
Qed.

(** X11. The message of an [*APIError] starts with [corestream: ], and
    among the errors without a message of the API it tells the status:
    two of them with the same text have the same status code. *)
Theorem APIError_Error_tells_status (a b : APIError) :
  String.prefix "corestream: " (APIError_Error a) = true
  /\ (Message a = EmptyString -> Message b = EmptyString ->
      APIError_Error a = APIError_Error b -> StatusCode a = StatusCode b).
Proof.
  split.
  - apply prefix_correct. unfold APIError_Error.
    destruct (negb _); [apply substring_append|].
    exact (substring_append "corestream: "
             ("request failed with status " ++ strconv.Itoa (StatusCode a))).
  - intros Ma Mb. unfold APIError_Error. rewrite Ma, Mb. cbn [String.eqb negb].
    intros E. apply append_inj_l in E.
    unfold strconv.Itoa in E. apply (inj pretty) in E. exact E.
Qed.

End ErrorsMore.

(** ** The client, further *)

Section ClientMore.

Context `{Json} `{Net}.
Implicit Types (c : client.Client) (e : error).

Ltac exec :=
  cbv [mbind mret client.Exec_bind client.Exec_ret client.try client.fail
       client.log_Println].

(** X12. An [*APIError] that [request] returns has a status code of 400 at
    least: it is only made from a response of such a status. *)
Theorem APIError_only_from_status_400 c (ctx : Context)
    (method path : string) (query : option (gmap string (list string)))
    (body result : option any) (a : APIError) :
  snd (client.request c ctx method path query body result)
  = inr (APIError_ptr a) ->
  400 <= StatusCode a.
Proof.
  unfold client.request. exec.
  destruct (url.URL_Parse (client.baseURL c) path) as [u|e1]; cbn [snd];
    [|discriminate].
  destruct body as [v|]; exec.
  - destruct (Marshal v) as [jsonBody|e2]; cbn [snd]; [|discriminate].
    destruct (NewRequestWithContext _ _ _ _) as [req|e3]; cbn [snd];
      [|discriminate].
    destruct (client.httpClient c _) as [resp|e4]; cbn [snd];
      [|discriminate].
    destruct (io.ReadAll (http.RespBody resp)) as [respBody [e5|]];
      cbn [snd]; [discriminate|].
    destruct (400 <=? http.StatusCode resp) eqn:St; cbn [snd].
    { apply Z.leb_le in St. intros [= <-].
      destruct (0 <? List.length respBody)%nat; [|exact St].
      destruct (Unmarshal_errResp respBody) as [[code message]|e];
        exact St. }
    destruct result as [v'|]; [|discriminate].
    destruct (0 <? List.length respBody)%nat; [|discriminate].
    destruct (Unmarshal respBody v'); discriminate.
  - destruct (NewRequestWithContext _ _ _ _) as [req|e3]; cbn [snd];
      [|discriminate].
    destruct (client.httpClient c _) as [resp|e4]; cbn [snd];
      [|discriminate].
    destruct (io.ReadAll (http.RespBody resp)) as [respBody [e5|]];
      cbn [snd]; [discriminate|].
    destruct (400 <=? http.StatusCode resp) eqn:St; cbn [snd].
    { apply Z.leb_le in St. intros [= <-].
      destruct (0 <? List.length respBody)%nat; [|exact St].
      destruct (Unmarshal_errResp respBody) as [[code message]|e];
        exact St. }
    destruct result as [v'|]; [|discriminate].
    destruct (0 <? List.length respBody)%nat; [|discriminate].
    destruct (Unmarshal respBody v'); discriminate.
Qed.

End ClientMore.

(** ** The client, stage by stage *)

Section ClientStages.

Context `{Json} `{Net}.
Implicit Types (c : client.Client) (e : error).

Ltac exec :=
  cbv [mbind mret client.Exec_bind client.Exec_ret client.try client.fail
       client.log_Println].

(** [request], stage by stage. *)
Lemma request_stages c (ctx : Context) (method path : string)
    (query : option (gmap string (list string))) (body result : option any) :
  client.request c ctx method path query body result
  = match url.URL_Parse (client.baseURL c) path with
    | inr e => ([], inr (invalid_path path e))
    | inl u =>
        ([["request"; method; URL_String u]],
         match stages.encoded body with
         | inr e => inr (failed_to_encode_request_body e)
         | inl bodyReader =>
             match
               NewRequestWithContext ctx method (URL_String (target u query))
                 bodyReader
             with
             | inr e => inr (failed_to_create_request e)
             | inl req =>
                 match
                   client.httpClient c (with_headers c (not_nil body) req)
                 with
                 | inr e => inr (request_failed e)
                 | inl resp =>
                     match snd (io.ReadAll (http.RespBody resp)) with
                     | Some e => inr (failed_to_read_response e)
                     | None =>
                         stages.answer result resp
                           (fst (io.ReadAll (http.RespBody resp)))
                     end
                 end
             end
         end)
    end.
Proof.
  unfold client.request, stages.encoded, stages.answer, target, with_headers.
  exec.
  destruct (url.URL_Parse (client.baseURL c) path) as [u|e1]; [|reflexivity].
  destruct body as [v|]; exec.
  - destruct (Marshal v) as [jsonBody|e2]; [|reflexivity].
    destruct (NewRequestWithContext _ _ _ _) as [req|e3]; [|reflexivity].
    cbn [not_nil].
    destruct (client.httpClient c _) as [resp|e4]; [|reflexivity].
    destruct (io.ReadAll (http.RespBody resp)) as [respBody [e5|]];
      [reflexivity|].
    cbn [fst snd].
    destruct (400 <=? http.StatusCode resp); [reflexivity|].
    destruct result as [v'|]; [|reflexivity].
    destruct (0 <? List.length respBody)%nat; [|reflexivity].
    destruct (Unmarshal respBody v'); reflexivity.
  - destruct (NewRequestWithContext _ _ _ _) as [req|e3]; [|reflexivity].
    cbn [not_nil].
    destruct (client.httpClient c _) as [resp|e4]; [|reflexivity].
    destruct (io.ReadAll (http.RespBody resp)) as [respBody [e5|]];
      [reflexivity|].
    cbn [fst snd].
    destruct (400 <=? http.StatusCode resp); [reflexivity|].
    destruct result as [v'|]; [|reflexivity].
    destruct (0 <? List.length respBody)%nat; [|reflexivity].
    destruct (Unmarshal respBody v'); reflexivity.
Qed.

End ClientStages.

(** ** The client, further still *)

Section ClientFurther.

Context `{Json} `{Net}.
Implicit Types (c : client.Client) (e : error).

Lemma Header_Get_Set (h : gmap string (list string)) (key value : string) :
  http.Header_Get (http.Header_Set h key value) key = value.
Proof.
  unfold http.Header_Get, http.Header_Set. rewrite lookup_insert_eq.
  reflexivity.
Qed.

Lemma Header_Get_Set_ne (h : gmap string (list string))
    (key key' value : string) :
  key' <> key ->
  http.Header_Get (http.Header_Set h key' value) key = http.Header_Get h key.
Proof.
  intros N. unfold http.Header_Get, http.Header_Set.
  rewrite lookup_insert_ne by exact N. reflexivity.
Qed.

Lemma carries_with_headers c (b : bool) (req : http.Request) :
  props.carries c (with_headers c b req) = true.
Proof.
  unfold props.carries, with_headers, client.Header_Set, client.userAgent.
  destruct b; cbn [http.Header];
    repeat (rewrite Header_Get_Set
            || rewrite Header_Get_Set_ne by discriminate);
    rewrite !String.eqb_refl; reflexivity.
Qed.

Lemma announces_json_with_headers c (req : http.Request) :
  props.announces_json (with_headers c true req) = true.
Proof.
  unfold props.announces_json, with_headers, client.Header_Set.
  cbn [http.Header]. rewrite Header_Get_Set. reflexivity.
Qed.

Lemma guarded_httpClient (ok : http.Request -> bool) c
    (req : http.Request) :
  client.httpClient (props.guarded ok c) req
  = if ok req then client.httpClient c req else inr (External "not sent").
Proof. reflexivity. Qed.

(** X13. The response of a status below 400 is not decoded when the call
    has no destination: the call succeeds whatever the body is. With a
    destination and an empty body the destination is left as it was. *)
Theorem response_not_decoded_without_destination c (ctx : Context)
    (method path : string) (query : option (gmap string (list string)))
    (body result : option any) (u : URL) (bodyReader : option (list byte))
    (req : http.Request) (resp : http.Response) (respBody : list byte) :
  url.URL_Parse (client.baseURL c) path = inl u ->
  stages.encoded body = inl bodyReader ->
  NewRequestWithContext ctx method (URL_String (target u query)) bodyReader
  = inl req ->
  client.httpClient c (with_headers c (not_nil body) req) = inl resp ->
  io.ReadAll (http.RespBody resp) = (respBody, None) ->
  http.StatusCode resp < 400 ->
  snd (client.request c ctx method path query body None) = inl None
  /\ (respBody = [] ->
      snd (client.request c ctx method path query body result) = inl result).
Proof.
  intros U B N D R St.
  rewrite !request_stages, U, B, N, D, R. cbn [fst snd].
  unfold stages.answer.
  assert ((400 <=? http.StatusCode resp) = false) as -> by (apply Z.leb_gt, St).
  split; [reflexivity|].
  intros ->. destruct result; reflexivity.
Qed.

(** X14. The transport is only handed requests that carry the bearer token
    of the client, its user agent and the JSON accept header: a call
    behaves alike on a transport that would turn down any other request. *)
Theorem transport_only_sees_authorized_requests c (ctx : Context)
    (method path : string) (query : option (gmap string (list string)))
    (body result : option any) :
  client.request (props.guarded (props.carries c) c) ctx method path query
    body result
  = client.request c ctx method path query body result.
Proof.
  rewrite !request_stages. cbn [props.guarded client.baseURL].
  destruct (url.URL_Parse (client.baseURL c) path) as [u|e]; [|reflexivity].
  destruct (stages.encoded body) as [bodyReader|e]; [|reflexivity].
  destruct (NewRequestWithContext _ _ _ _) as [req|e]; [|reflexivity].
  change (with_headers (props.guarded (props.carries c) c) (not_nil body) req)
    with (with_headers c (not_nil body) req).
  rewrite guarded_httpClient, carries_with_headers. reflexivity.
Qed.

(** X15. A call with a body announces it: the transport is only handed
    requests whose content type is [application/json]. So does
    [TestWebhook] whatever its request value is, [nil] included. *)
Theorem body_is_announced_as_json `{!Types} c (ctx : Context)
    (method path : string) (query : option (gmap string (list string)))
    (v : any) (result : option any) (alertID : string) :
  client.request (props.guarded props.announces_json c) ctx method path
    query (Some v) result
  = client.request c ctx method path query (Some v) result
  /\ resources.TestWebhook (props.guarded props.announces_json c) ctx
       alertID v
     = resources.TestWebhook c ctx alertID v.
Proof.
  assert (forall (m p : string) (r : option any),
            client.request (props.guarded props.announces_json c) ctx m p
              query (Some v) r
            = client.request c ctx m p query (Some v) r) as R.
  { intros m p r. rewrite !request_stages.
    cbn [props.guarded client.baseURL].
    destruct (url.URL_Parse (client.baseURL c) p) as [u|e]; [|reflexivity].
    destruct (stages.encoded (Some v)) as [bodyReader|e]; [|reflexivity].
    destruct (NewRequestWithContext _ _ _ _) as [req|e]; [|reflexivity].
    cbn [not_nil].
    change (with_headers (props.guarded props.announces_json c) true req)
      with (with_headers c true req).
    rewrite guarded_httpClient, announces_json_with_headers. reflexivity. }
  split; [apply R|].
  unfold resources.TestWebhook. cbv zeta.
  assert (forall (m p : string),
            client.request (props.guarded props.announces_json c) ctx m p
              None (Some v) None
            = client.request c ctx m p None (Some v) None) as R'.
  { intros m p. rewrite !request_stages.
    cbn [props.guarded client.baseURL].
    destruct (url.URL_Parse (client.baseURL c) p) as [u|e]; [|reflexivity].
    destruct (stages.encoded (Some v)) as [bodyReader|e]; [|reflexivity].
    destruct (NewRequestWithContext _ _ _ _) as [req|e]; [|reflexivity].
    cbn [not_nil].
    change (with_headers (props.guarded props.announces_json c) true req)
      with (with_headers c true req).
    rewrite guarded_httpClient, announces_json_with_headers. reflexivity. }
  rewrite R'. reflexivity.
Qed.

(** X16. A call logs one line, its method and its address without the
    query, when the path resolves against the base address, also when the
    call then fails; it logs nothing else, and nothing when the path does
    not resolve: neither the token nor the query nor the body is logged. *)
Theorem request_log c (ctx : Context) (method path : string)
    (query : option (gmap string (list string))) (body result : option any) :
  fst (client.request c ctx method path query body result)
  = match url.URL_Parse (client.baseURL c) path with
    | inl u => [["request"; method; URL_String u]]
    | inr _ => []
    end.
Proof.
  rewrite request_stages.
  destruct (url.URL_Parse (client.baseURL c) path); reflexivity.
Qed.

Lemma apply_exported (opts : list client.Option) :
  Forall props.exported opts ->
  forall c c', client.apply opts c = inl c' ->
               client.token c' = client.token c.
Proof.
  induction 1 as [|opt opts E _ IH]; intros c c'.
  - intros [= <-]. reflexivity.
  - cbn [client.apply]. destruct E as [address|h].
    + unfold client.WithBaseURL.
      destruct (url.Parse address) as [u|e]; [|discriminate].
      intros A. apply IH in A. exact A.
    + unfold client.WithHTTPClient. destruct h as [h|]; [|discriminate].
      intros A. apply IH in A. exact A.
Qed.

(** X17. A client that [NewClient] builds with the options of the package
    holds the token it was given, and that token is not empty. *)
Theorem NewClient_keeps_token (token : string) (opts : list client.Option)
    c :
  Forall props.exported opts ->
  client.NewClient token opts = inl c ->
  client.token c = token /\ token <> EmptyString.
Proof.
  intros E. unfold client.NewClient.
  destruct (String.eqb token "") eqn:T; [discriminate|].
  intros A. apply (apply_exported opts E) in A. cbn [client.token] in A.
  split; [exact A|]. apply String.eqb_neq, T.
Qed.

End ClientFurther.

(** ** The resource methods *)

Section Resources.

Context `{Json} `{Net} `{!Types}.
Implicit Types (c : client.Client).

(** X18. A page number or a page size that is not positive is left out of
    the query: the listing methods answer alike for all such values. *)
Theorem pagination_left_out_unless_positive c (ctx : Context)
    (page pageSize page' pageSize' : Z) (id query timeRange : string) :
  page <= 0 -> page' <= 0 -> pageSize <= 0 -> pageSize' <= 0 ->
  resources.ListAlerts c ctx page pageSize
  = resources.ListAlerts c ctx page' pageSize'
  /\ resources.GetAlertNotifications c ctx id page pageSize
     = resources.GetAlertNotifications c ctx id page' pageSize'
  /\ resources.ListStreams c ctx page pageSize id
     = resources.ListStreams c ctx page' pageSize' id
  /\ resources.SearchStreams c ctx query page pageSize timeRange
     = resources.SearchStreams c ctx query page' pageSize' timeRange.
Proof.
  intros P P' Q Q'.
  unfold resources.ListAlerts, resources.GetAlertNotifications,
    resources.ListStreams, resources.SearchStreams.
  assert ((0 <? page) = false) as -> by (apply Z.ltb_ge; exact P).
  assert ((0 <? page') = false) as -> by (apply Z.ltb_ge; exact P').
  assert ((0 <? pageSize) = false) as -> by (apply Z.ltb_ge; exact Q).
  assert ((0 <? pageSize') = false) as -> by (apply Z.ltb_ge; exact Q').
  repeat split.
Qed.

(** X19. When the transport answers 404 to [GetStreamer] and the answer
    was read, [GetStreamer] returns no streamer and an error that
    [IsNotFound] accepts, which is the error of [request], not wrapped. *)
Theorem GetStreamer_not_found c (ctx : Context) (streamerID : string)
    (u : URL) (req : http.Request) (resp : http.Response)
    (respBody : list byte) :
  url.URL_Parse (client.baseURL c) ("/v2/streamers/" ++ streamerID) = inl u ->
  NewRequestWithContext ctx http.MethodGet (URL_String u) None = inl req ->
  client.httpClient c (with_headers c false req) = inl resp ->
  io.ReadAll (http.RespBody resp) = (respBody, None) ->
  http.StatusCode resp = 404 ->
  exists e,
    snd (resources.GetStreamer c ctx streamerID) = inr e
    /\ snd (client.request c ctx http.MethodGet
              ("/v2/streamers/" ++ streamerID) None None
              (Some (zero Streamer))) = inr e
    /\ IsNotFound (Some e) = true.
Proof.
  intros U N D R St.
  unfold resources.GetStreamer, resources.into. cbv zeta.
  cbv [mbind client.Exec_bind].
  rewrite request_stages, U. cbn [stages.encoded target not_nil].
  rewrite N, D, R. cbn [fst snd]. unfold stages.answer. rewrite St.
  cbn [Z.leb Z.compare Pos.compare Pos.compare_cont].
  eexists. split; [reflexivity|]. split; [reflexivity|].
  unfold IsNotFound, isStatusCode. cbn [As_APIError].
  destruct (0 <? List.length respBody)%nat; [|reflexivity].
  destruct (Unmarshal_errResp respBody) as [[code message]|e]; reflexivity.
Qed.

End Resources.

(** ** The example program *)

Section Example.

Lemma substring_length (s : string) (n : nat) :
  String.length (substring 0 n s) = Nat.min n (String.length s).
Proof.
  revert n. induction s as [|c s IH]; intros [|n]; cbn; try reflexivity.
  rewrite IH. reflexivity.
Qed.

Lemma substring_prefix (s : string) (n : nat) :
  substring 0 (String.length (substring 0 n s)) s = substring 0 n s.
Proof.
  revert n. induction s as [|c s IH]; intros [|n]; cbn; try reflexivity.
  rewrite IH. reflexivity.
Qed.

Lemma substring_all (s : string) : substring 0 (String.length s) s = s.
Proof.
  induction s as [|c s IH]; [reflexivity|].
  change (String c (substring 0 (String.length s) s) = String c s).
  f_equal. exact IH.
Qed.

(** X20. [truncate] panics exactly on a negative bound. On a bound that is
    not negative it returns a prefix of the string, of the length of the
    string or of the bound, whichever is less, and truncating again
    changes nothing. *)
Theorem truncate_prefix (s : string) (maxLen : Z) :
  (maxLen < 0 -> example.truncate s maxLen = None)
  /\ (0 <= maxLen ->
      exists t,
        example.truncate s maxLen = Some t
        /\ String.length t = Nat.min (String.length s) (Z.to_nat maxLen)
        /\ String.prefix t s = true
        /\ example.truncate t maxLen = Some t).
Proof.
  unfold example.truncate. split.
  - intros N.
    assert ((Z.of_nat (String.length s) <=? maxLen) = false) as ->
      by (apply Z.leb_gt; lia).
    assert ((maxLen <? 0) = true) as -> by (apply Z.ltb_lt; exact N).
    reflexivity.
  - intros P.
    destruct (Z.of_nat (String.length s) <=? maxLen) eqn:L.
    + exists s. rewrite L. apply Z.leb_le in L.
      split; [reflexivity|]. split; [lia|].
      split; [|reflexivity].
      apply prefix_correct, substring_all.
    + apply Z.leb_gt in L.
      assert ((maxLen <? 0) = false) as -> by (apply Z.ltb_ge; exact P).
      exists (substring 0 (Z.to_nat maxLen) s).
      split; [reflexivity|]. split; [rewrite substring_length; lia|].
      split; [apply prefix_correct, substring_prefix|].
      assert ((Z.of_nat
                 (String.length (substring 0 (Z.to_nat maxLen) s))
               <=? maxLen) = true) as ->; [|reflexivity].
      apply Z.leb_le. rewrite substring_length. lia.
Qed.

End Example.

(** ** The receiver: what a sender can tell *)

Section ReceiverAnswers.

Context `{Json} {S : Type}.
Implicit Types (r : webhook.WebhookReceiver S) (req : http.Request)
               (w : webhook.World S).

(** X21. The body of a request that is not a POST is not read: the request
    is served alike whatever its body. *)
Theorem body_unread_unless_POST r req (b : io.Reader) :
  http.Method req <> http.MethodPost ->
  webhook.ServeHTTP r (with_body req b) = webhook.ServeHTTP r req.
Proof.
  intros M. apply String.eqb_neq in M.
  unfold webhook.ServeHTTP, with_body. cbn [http.Method http.Header http.Body].
  rewrite M. reflexivity.
Qed.

(** X22. The body of an answer is one of seven fixed texts: the receiver
    sends back nothing of the notification, of the signature or of the
    error of the handler. *)
Theorem answer_is_a_fixed_text r req w :
  http.W_Body (webhook.writer w) = [] ->
  http.W_Body (webhook.writer (snd (webhook.ServeHTTP r req w)))
  ∈ [ Bytes.of_string "method not allowed" ++ [x0a];
      Bytes.of_string "failed to read body" ++ [x0a];
      Bytes.of_string "corestream: missing webhook signature" ++ [x0a];
      Bytes.of_string "corestream: invalid webhook signature" ++ [x0a];
      Bytes.of_string "invalid payload" ++ [x0a];
      Bytes.of_string "handler error" ++ [x0a];
      Bytes.of_string webhook.status_ok ].
Proof.
  intros Body. rewrite ServeHTTP_stages.
  assert (forall (msg : string) (code : Z) (w0 : webhook.World S),
            http.W_Body (webhook.writer w0) = [] ->
            http.W_Body (webhook.writer (reply (http.Error msg code) w0))
            = Bytes.of_string msg ++ [x0a]) as Err.
  { intros msg code w0 B. cbn [reply webhook.writer].
    rewrite Error_body, B. reflexivity. }
  destruct (negb (String.eqb (http.Method req) http.MethodPost)).
  { rewrite Err by exact Body. set_solver. }
  destruct (snd (read_of r req)).
  { rewrite Err by exact Body. set_solver. }
  destruct (negb (webhook.skipVerification r)
            && String.eqb (signature_of req) "").
  { cbn [webhook.Body_Close webhook.writer]. 
    rewrite (Err _ 401 w) by exact Body. set_solver. }
  destruct (negb (webhook.skipVerification r)
            && negb (webhook.verifySignature (fst (read_of r req))
                       (signature_of req) (webhook.secret r))).
  { cbn [webhook.Body_Close webhook.writer].
    rewrite (Err _ 401 w) by exact Body. set_solver. }
  destruct (webhook.ParseWebhookNotification (fst (read_of r req)))
    as [n|e].
  2:{ cbn [webhook.Body_Close webhook.writer].
      rewrite (Err _ 400 w) by exact Body. set_solver. }
  destruct (fst (webhook.handler r n (webhook.user w))).
  - cbn [webhook.Body_Close webhook.writer].
    rewrite (Err _ 500 (handled r n w)) by exact Body. set_solver.
  - cbn [webhook.Body_Close webhook.writer reply handled].
    rewrite acknowledge_body, Body. set_solver.
Qed.

End ReceiverAnswers.

(** ** The further theorems at the inputs of the tests *)

Section WitnessesMore.

#[local] Existing Instance testing.json.
#[local] Existing Instance testing.net.
#[local] Existing Instance fixtures.types.

(** The signature of the tests has 64 characters, under X3. *)
Lemma verified_signature_of_the_tests :
  String.length (generateSignature testing.body "test-secret") = 64%nat.
Proof.
  assert (webhook.verifySignature testing.body
            (generateSignature testing.body "test-secret")
            (Bytes.of_string "test-secret") = true) as V
    by (vm_compute; reflexivity).
  exact (proj1 (verified_signature_shape testing.body
                  (generateSignature testing.body "test-secret")
                  (Bytes.of_string "test-secret") V)).
Defined.

(** The receiver without verification serves the request of the tests
    alike with and without its invalid signature, under X5. *)
Lemma disabled_verification_test :
  webhook.ServeHTTP
    (webhook.NewWebhookReceiver "" testing.accept
       [webhook.WithoutSignatureVerification])
    (props.with_header
       (testing.NewRequest "POST" testing.body (Some "invalid-signature"))
       ∅)
  = webhook.ServeHTTP
      (webhook.NewWebhookReceiver "" testing.accept
         [webhook.WithoutSignatureVerification])
      (testing.NewRequest "POST" testing.body (Some "invalid-signature")).
Proof.
  apply (disabled_verification_ignores_headers
           (webhook.NewWebhookReceiver "" testing.accept
              [webhook.WithoutSignatureVerification])
           (testing.NewRequest "POST" testing.body
              (Some "invalid-signature")) ∅).
  reflexivity.
Defined.

(** The request of the tests with an invalid signature, under X6: an
    answer among the five. *)
Lemma status_of_invalid_signature :
  let w' := snd (webhook.ServeHTTP testing.receiver
                   (testing.NewRequest "POST" testing.body
                      (Some "invalid-signature")) testing.fresh) in
  let code := http.W_Code (webhook.writer w') in
  ((code = Some 405 \/ code = Some 400 \/ code = Some 401)
   /\ webhook.invoked w' = webhook.invoked testing.fresh
   /\ webhook.user w' = webhook.user testing.fresh)
  \/ (exists n,
        webhook.ParseWebhookNotification
          (fst (read_of testing.receiver
                  (testing.NewRequest "POST" testing.body
                     (Some "invalid-signature")))) = inl n
        /\ webhook.invoked w' = webhook.invoked testing.fresh ++ [n]
        /\ webhook.user w'
           = snd (webhook.handler testing.receiver n
                    (webhook.user testing.fresh))
        /\ (fst (webhook.handler testing.receiver n
                   (webhook.user testing.fresh)) = None
            /\ code = Some 200
            \/ fst (webhook.handler testing.receiver n
                      (webhook.user testing.fresh)) <> None
               /\ code = Some 500)).
Proof.
  exact (status_tells_whether_handler_ran testing.receiver
           (testing.NewRequest "POST" testing.body
              (Some "invalid-signature")) testing.fresh eq_refl).
Defined.

(** The valid request of the tests, under X8: the headers of the answer
    are those of a fresh writer. *)
Lemma headers_of_valid_request :
  let req := testing.NewRequest "POST" testing.body
               (Some (generateSignature testing.body "test-secret")) in
  http.W_Header
    (webhook.writer
       (snd (webhook.ServeHTTP testing.receiver req testing.fresh)))
  = ∅.
Proof.
  intros req.
  destruct (response_headers testing.receiver req testing.fresh eq_refl)
    as [[_ E] | [N _]].
  - exact E.
  - exfalso. apply N. vm_compute. reflexivity.
Defined.

(** The 404 of the tests, under X12. *)
Lemma APIError_of_the_tests :
  snd (client.request testing.client_404 tt "GET" "/v2/streamers/test-id"
         None None None)
  = inr (APIError_ptr {| StatusCode := 404; Code := "not_found";
                         Message := "Resource not found" |})
  /\ 400 <= 404.
Proof.
  split; [reflexivity|].
  exact (APIError_only_from_status_400 testing.client_404 tt "GET"
           "/v2/streamers/test-id" None None None
           {| StatusCode := 404; Code := "not_found";
              Message := "Resource not found" |} eq_refl).
Defined.

(** A delete answered 204 with a body that is no JSON, under X13: no
    error. *)
Lemma delete_with_garbage_body :
  snd (client.request fixtures.client_204 tt "DELETE" "/v2/alerts/alert_123"
         None None None) = inl None.
Proof.
  exact (proj1
           (response_not_decoded_without_destination fixtures.client_204 tt
              "DELETE" "/v2/alerts/alert_123" None None None
              "https://api.core.stream/v2/alerts/alert_123"%string None
              {| http.Method := "DELETE";
                 http.URL := "https://api.core.stream/v2/alerts/alert_123";
                 http.Header := ∅;
                 http.Body := {| io.data := []; io.err := None |} |}
              {| http.StatusCode := 204;
                 http.RespBody := {| io.data := testing.invalid_body;
                                     io.err := None |} |}
              testing.invalid_body
              eq_refl eq_refl eq_refl eq_refl eq_refl eq_refl)).
Defined.

(** The client of the tests, under X17. *)
Lemma token_of_the_tests :
  client.token testing.client_404 = "test-token"%string
  /\ "test-token"%string <> EmptyString.
Proof.
  apply (NewClient_keeps_token "test-token"
           [client.WithHTTPClient
              (Some (testing.respond 404 testing.envelope))]
           testing.client_404).
  - constructor; [apply props.exported_WithHTTPClient | constructor].
  - reflexivity.
Defined.

(** Page 0 and page -1, under X18. *)
Lemma pagination_of_zero_and_minus_one :
  resources.ListAlerts testing.client_404 tt 0 0
  = resources.ListAlerts testing.client_404 tt (-1) (-20).
Proof.
  apply (pagination_left_out_unless_positive testing.client_404 tt
           0 0 (-1) (-20) EmptyString EmptyString EmptyString); lia.
Defined.

(** The 404 of the tests through [GetStreamer], under X19. *)
Lemma GetStreamer_of_the_tests :
  exists e,
    snd (resources.GetStreamer testing.client_404 tt "test-id") = inr e
    /\ IsNotFound (Some e) = true.
Proof.
  destruct (GetStreamer_not_found testing.client_404 tt "test-id"
              "https://api.core.stream/v2/streamers/test-id"%string
              {| http.Method := "GET";
                 http.URL := "https://api.core.stream/v2/streamers/test-id";
                 http.Header := ∅;
                 http.Body := {| io.data := []; io.err := None |} |}
              {| http.StatusCode := 404;
                 http.RespBody := {| io.data := testing.envelope;
                                     io.err := None |} |}
              testing.envelope
              eq_refl eq_refl eq_refl eq_refl eq_refl)
    as (e & G & _ & N).
  exists e. split; [exact G | exact N].
Defined.

(** The GET request of the tests, under X21: its body is not read. *)
Lemma body_of_a_GET_request :
  webhook.ServeHTTP testing.receiver
    (with_body (testing.NewRequest "GET" [] None)
       (testing.failing testing.body))
  = webhook.ServeHTTP testing.receiver (testing.NewRequest "GET" [] None).
Proof.
  apply (body_unread_unless_POST testing.receiver
           (testing.NewRequest "GET" [] None)
           (testing.failing testing.body)).
  discriminate.
Defined.

(** The request of the tests without a signature, under X22. *)
Lemma answer_to_missing_signature :
  http.W_Body
    (webhook.writer
       (snd (webhook.ServeHTTP testing.receiver
               (testing.NewRequest "POST" testing.body None) testing.fresh)))
  ∈ [ Bytes.of_string "method not allowed" ++ [x0a];
      Bytes.of_string "failed to read body" ++ [x0a];
      Bytes.of_string "corestream: missing webhook signature" ++ [x0a];
      Bytes.of_string "corestream: invalid webhook signature" ++ [x0a];
      Bytes.of_string "invalid payload" ++ [x0a];
      Bytes.of_string "handler error" ++ [x0a];
      Bytes.of_string webhook.status_ok ].
Proof.
  exact (answer_is_a_fixed_text testing.receiver
           (testing.NewRequest "POST" testing.body None) testing.fresh
           eq_refl).
Defined.

(** [truncate] on the bound of the example and on a short one. *)
Example truncate_examples :
  example.truncate "full transcript" 100 = Some "full transcript"%string
  /\ example.truncate "full transcript" 4 = Some "full"%string
  /\ example.truncate "" (-1) = None.
Proof. repeat split. Qed.

(** The message of the 404 of the tests, and of a bare 500. *)
Example APIError_Error_examples :
  APIError_Error {| StatusCode := 404; Code := "not_found";
                    Message := "Resource not found" |}
  = "corestream: Resource not found (status 404, code not_found)"%string
  /\ APIError_Error {| StatusCode := 500; Code := ""; Message := "" |}
     = "corestream: request failed with status 500"%string.
Proof. split; vm_compute; reflexivity. Qed.

(** An upper-case signature verifies. *)
Example upper_case_signature :
  webhook.VerifyWebhookSignature testing.body
    "6BB97C4374581AC3D765F0C1A46C2B3F6CBF81D9BC4245D3D6F7DB460ECCB5E1"
    "test-secret" = true.
Proof. vm_compute. reflexivity. Qed.

End WitnessesMore.
